(** * Output sinks of MUSE (muse/outputs/sinks.py)

    A shallow embedding of the sink factory, the file-sink decorator, the
    format writers and the yearly aggregate, with the properties of the
    specification stated over it. *)

From Stdlib Require Import ZArith Ascii String List DecimalString Lia.
From stdpp Require Import base option list strings gmap.

Set Warnings "-register-all".

Local Open Scope string_scope.
Local Open Scope Z_scope.

(** ** Python values and exceptions *)

(** The values a configuration can hold.  A [dict] keeps insertion
    order, as Python's does, which is the order of the keyword
    arguments that a sink receives. *)
Inductive pyval : Type :=
| VNone
| VBool (b : bool)
| VInt (z : Z)
| VStr (s : string)
| VDict (d : list (string * pyval)).

Abbreviation dict := (list (string * pyval)).

(** Exceptions that can leave the modelled code.  [Unsupported] is not
    one of Python's: it marks an input outside the modelled fragment of
    the language (the [repr] of a mapping, format specifications). *)
Inductive exn : Type :=
| ValueError (msg : string)
| KeyError (key : string)
| IndexError
| TypeError
| AttributeError
| IOError (msg : string)
| OSError (msg : string)
| ModuleNotFoundError (msg : string)
| Unsupported.

Inductive result (A : Type) : Type :=
| Ok (a : A)
| Err (e : exn).
Arguments Ok {A} a.
Arguments Err {A} e.

Definition rbind {A B} (m : result A) (f : A -> result B) : result B :=
  match m with
  | Ok a => f a
  | Err e => Err e
  end.

Notation "'do' x <- m ; k" := (rbind m (fun x => k))
  (at level 10, x name, m at level 100, k at level 200).
Notation "'do' ' p <- m ; k" := (rbind m (fun x => match x with p => k end))
  (at level 10, p pattern, m at level 100, k at level 200).

(** ** Dictionaries *)

Module Dict.

Fixpoint get (k : string) (d : dict) : option pyval :=
  match d with
  | [] => None
  | (k', v) :: d' => if String.eqb k k' then Some v else get k d'
  end.

Definition contains (k : string) (d : dict) : bool :=
  match get k d with Some _ => true | None => false end.

(** [d.get(k, default)] *)
Definition get_default (k : string) (default : pyval) (d : dict) : pyval :=
  match get k d with Some v => v | None => default end.

Definition remove (k : string) (d : dict) : dict :=
  List.filter (fun kv => negb (String.eqb k (fst kv))) d.

(** [d[k] = v]: an existing key keeps its place, a new one goes last. *)
Fixpoint set (k : string) (v : pyval) (d : dict) : dict :=
  match d with
  | [] => [(k, v)]
  | (k', v') :: d' =>
      if String.eqb k k' then (k, v) :: d' else (k', v') :: set k v d'
  end.

(** [d.pop(k, default)], as the value and the remaining dictionary. *)
Definition pop_default (k : string) (default : pyval) (d : dict)
  : pyval * dict :=
  (get_default k default d, remove k d).

(** [d.pop(k)], which raises [KeyError] on a missing key. *)
Definition pop (k : string) (d : dict) : result (pyval * dict) :=
  match get k d with
  | Some v => Ok (v, remove k d)
  | None => Err (KeyError k)
  end.

(** [d.update(other)] *)
Definition update (d other : dict) : dict :=
  fold_left (fun acc kv => set (fst kv) (snd kv) acc) other d.

Definition keys (d : dict) : list string := List.map fst d.

(** [set(a).intersection(b)], as the keys of [a] that [b] has. *)
Definition intersection (a b : dict) : list string :=
  List.filter (fun k => contains k b) (keys a).

End Dict.

(** Python truthiness. *)
Definition truthy (v : pyval) : bool :=
  match v with
  | VNone => false
  | VBool b => b
  | VInt z => negb (z =? 0)
  | VStr s => negb (String.eqb s "")
  | VDict d => match d with [] => false | _ => true end
  end.

(** ** Strings and [pathlib] *)

Definition is_upper (c : ascii) : bool :=
  let n := nat_of_ascii c in (65 <=? n)%nat && (n <=? 90)%nat.
Definition is_lower (c : ascii) : bool :=
  let n := nat_of_ascii c in (97 <=? n)%nat && (n <=? 122)%nat.
Definition to_upper (c : ascii) : ascii :=
  if is_lower c then ascii_of_nat (nat_of_ascii c - 32) else c.
Definition to_lower (c : ascii) : ascii :=
  if is_upper c then ascii_of_nat (nat_of_ascii c + 32) else c.

(** [str.lower()], on ASCII letters. *)
Fixpoint lower (s : string) : string :=
  match s with
  | EmptyString => EmptyString
  | String c s' => String (to_lower c) (lower s')
  end.

(** [str.title()], on ASCII letters: a letter that follows a letter is
    lowered, any other letter is raised. *)
Fixpoint title_from (prev_cased : bool) (s : string) : string :=
  match s with
  | EmptyString => EmptyString
  | String c s' =>
      let cased := is_upper c || is_lower c in
      String (if prev_cased then to_lower c else to_upper c)
             (title_from cased s')
  end.
Definition title (s : string) : string := title_from false s.

(** [str(n)] for an [int]. *)
Definition str_of_int (z : Z) : string :=
  NilZero.string_of_int (Z.to_int z).

Fixpoint split_on (sep : ascii) (s : string) : list string :=
  match s with
  | EmptyString => [EmptyString]
  | String c s' =>
      if Ascii.eqb c sep then EmptyString :: split_on sep s'
      else match split_on sep s' with
           | [] => [String c EmptyString]
           | w :: ws => String c w :: ws
           end
  end.

(** [name.rfind(".")], [None] for -1. *)
Fixpoint rfind_dot (s : string) : option nat :=
  match s with
  | EmptyString => None
  | String c s' =>
      match rfind_dot s' with
      | Some i => Some (S i)
      | None => if Ascii.eqb c "." then Some O else None
      end
  end.

(** A [pathlib.Path] on a POSIX system: whether it is rooted, and its
    components.  Empty and [.] components are dropped when the path is
    parsed; [..] is kept as an ordinary component, as [pathlib] does. *)
Record Path : Type := mkPath { anchored : bool; parts : list string }.

Definition starts_with_slash (s : string) : bool :=
  match s with
  | String c _ => Ascii.eqb c "/"
  | EmptyString => false
  end.

(** [Path(s)] *)
Definition Path_of (s : string) : Path :=
  {| anchored := starts_with_slash s;
     parts := List.filter
                (fun p => negb (String.eqb p "") && negb (String.eqb p "."))
                (split_on "/" s) |}.

(** [path.name]: the last component, empty if there is none. *)
Definition path_name (p : Path) : string := List.last (parts p) "".

(** [path.suffix]: from the last dot of the name, unless the dot is the
    first or the last character of the name. *)
Definition path_suffix (p : Path) : string :=
  let name := path_name p in
  match rfind_dot name with
  | Some i =>
      if (0 <? i)%nat && (i <? String.length name - 1)%nat
      then substring i (String.length name - i) name
      else ""
  | None => ""
  end.

(** [path.parent] *)
Definition path_parent (p : Path) : Path :=
  {| anchored := anchored p; parts := removelast (parts p) |}.

(** [str(path)] *)
Definition path_str (p : Path) : string :=
  match parts p with
  | [] => if anchored p then "/" else "."
  | _ => ((if anchored p then "/" else "") ++ String.concat "/" (parts p))%string
  end.

(** ** The sink factory: normalisation of the [sink] entry *)

Section Normalize.

(** [config] is the factory's local of that name, which the nested
    function closes over, after [quantity] and [sink] were popped. *)
Variable config : dict.

(** The value of [Path(filename).suffix if filename else "csv"]. *)
Definition filename_suffix (filename : pyval) : result pyval :=
  if truthy filename then
    match filename with
    | VStr f => Ok (VStr (path_suffix (Path_of f)))
    | _ => Err TypeError
    end
  else Ok (VStr "csv").

(** The first branch of [normalize] for a value that is neither a
    mapping nor a string. *)
Definition inferred_name (filename : pyval) : result dict :=
  do default <- filename_suffix filename;
  let suffix := Dict.get_default "suffix" default config in
  let suffix := if truthy suffix then suffix else VStr "csv" in
  Ok [("name", suffix)].

(** The [if "aggregate" in params] block, given the outcome of the
    recursive call on [params.pop("aggregate")]. *)
Definition wrap_aggregate (params : dict) (inner : result dict)
  : result dict :=
  let params := Dict.set "name" (VStr "aggregate") params in
  let params := Dict.remove "aggregate" params in
  do final <- inner;
  Ok (Dict.set "final_sink" (VDict [("sink", VDict final)]) params).

(** [normalize], by recursion on the nesting of the value: the inner
    loop finds the [aggregate] entry of a mapping and normalises it.
    [normalize_eq] below gives the function in the shape of the
    source. *)
Fixpoint normalize (params : pyval) (filename : pyval) : result dict :=
  match params with
  | VDict d =>
      match
        (fix aggregate_of (l : dict) : option (result dict) :=
           match l with
           | [] => None
           | (k, v) :: l' =>
               if String.eqb "aggregate" k
               then Some (normalize v filename)
               else aggregate_of l'
           end) d
      with
      | Some inner => wrap_aggregate d inner
      | None => Ok d
      end
  | VStr s => Ok [("name", VStr s)]
  | _ => inferred_name filename
  end.

(** The body of the source's [normalize], with [self] for the
    recursive call. *)
Definition normalize_body (self : pyval -> pyval -> result dict)
  (params : pyval) (filename : pyval) : result dict :=
  do params <-
    match params with
    | VDict d => Ok d
    | VStr s => Ok [("name", VStr s)]
    | _ => inferred_name filename
    end;
  match Dict.get "aggregate" params with
  | Some inner => wrap_aggregate params (self inner filename)
  | None => Ok params
  end.

End Normalize.

(** ** [str.format] on the filename template *)

(** Characters that start a conversion, a format specification, an
    attribute or index access, or a nested field: templates that use
    them are outside the modelled fragment. *)
Definition field_special (c : ascii) : bool :=
  Ascii.eqb c "{" || Ascii.eqb c ":" || Ascii.eqb c "!"
  || Ascii.eqb c "." || Ascii.eqb c "[".

Definition is_digit (c : ascii) : bool :=
  let n := nat_of_ascii c in (48 <=? n)%nat && (n <=? 57)%nat.

Fixpoint all_digits (s : string) : bool :=
  match s with
  | EmptyString => true
  | String c s' => is_digit c && all_digits s'
  end.

(** [str(v)]; the [repr] of a mapping is outside the modelled fragment. *)
Definition py_str (v : pyval) : result string :=
  match v with
  | VNone => Ok "None"
  | VBool true => Ok "True"
  | VBool false => Ok "False"
  | VInt z => Ok (str_of_int z)
  | VStr s => Ok s
  | VDict _ => Err Unsupported
  end.

(** The text of a replacement field.  [format] is called with keyword
    arguments only, so an empty or numeric field name finds no
    positional argument. *)
Definition field_value (kwargs : dict) (name : string) : result string :=
  if all_digits name then Err IndexError
  else match Dict.get name kwargs with
       | Some v => py_str v
       | None => Err (KeyError name)
       end.

(** [template.format] on keyword arguments, left to right; [field]
    holds the name of the replacement field being read, if any. *)
Fixpoint format_from (kwargs : dict)
  (field : option string) (template : string) : result string :=
  match template with
  | EmptyString =>
      match field with
      | None => Ok ""
      | Some _ => Err (ValueError "expected '}' before end of string")
      end
  | String c rest =>
      match field with
      | None =>
          if Ascii.eqb c "{" then
            match rest with
            | String c' rest' =>
                if Ascii.eqb c' "{"
                then do r <- format_from kwargs None rest'; Ok (String "{" r)
                else format_from kwargs (Some "") rest
            | EmptyString =>
                Err (ValueError "Single '{' encountered in format string")
            end
          else if Ascii.eqb c "}" then
            match rest with
            | String c' rest' =>
                if Ascii.eqb c' "}"
                then do r <- format_from kwargs None rest'; Ok (String "}" r)
                else Err (ValueError "Single '}' encountered in format string")
            | EmptyString =>
                Err (ValueError "Single '}' encountered in format string")
            end
          else do r <- format_from kwargs None rest; Ok (String c r)
      | Some name =>
          if Ascii.eqb c "}" then
            do v <- field_value kwargs name;
            do r <- format_from kwargs None rest;
            Ok (v ++ r)%string
          else if field_special c then Err Unsupported
          else format_from kwargs (Some (name ++ String c ""))%string rest
      end
  end.

Definition format (template : string) (kwargs : dict) : result string :=
  format_from kwargs None template.



(** ** The libraries behind the sinks *)

(** pandas and xarray are used through the operations below.  [table] is
    a [pandas.DataFrame] without the attributes Python code may set on
    it, [array] an [xarray.DataArray], [content] what a written file
    holds.  Labels of columns are strings; a level of the index has a
    string as its name, or [None] as the default index has. *)
Class Backend : Type := {
  table : Type;
  array : Type;
  dataset : Type;
  content : Type;
  (** [df.columns] and [df.index.names] *)
  columns : table -> list string;
  index_names : table -> list (option string);
  (** [df[df[axis] == year]] *)
  select_eq : string -> Z -> table -> table;
  (** [df.xs(year, level=axis)], or the exception it raises: [KeyError]
      for a year that the level does not have, [TypeError] for a level
      of an index that is not a [MultiIndex] *)
  xs : Z -> option string -> table -> result table;
  (** [pd.concat((a, b))] *)
  concat : table -> table -> table;
  (** [array.name], and [array.to_dataframe()] of an array that has a
      name, or the exception it raises *)
  array_name : array -> option string;
  to_dataframe : array -> result table;
  (** [xr.Dataset.from_dataframe(df)] and [xr.Dataset({name: array})] *)
  from_dataframe : table -> dataset;
  Dataset : string -> array -> dataset;
  (** what [df.to_csv], [df.to_excel] and [dataset.to_netcdf] write
      under the given keyword arguments, or the exception they raise *)
  csv_encode : table -> dict -> result content;
  excel_encode : table -> dict -> result content;
  netcdf_encode : dataset -> dict -> result content;
}.

(** ** The file system *)

Inductive node (C : Type) : Type :=
| File (c : C)
| Directory.
Arguments File {C} c.
Arguments Directory {C}.

(** Files and directories by the components of their absolute path;
    the root is always a directory.  Paths are compared component by
    component: [..] and symbolic links are not interpreted. *)
Abbreviation FS := (gmap (list string) (node content)).

Section Sinks.

Context {B : Backend}.

(** The working directory of the process, as the components of its
    absolute path, and [muse.defaults.DEFAULT_OUTPUT_DIRECTORY]. *)
Variable cwd : list string.
Variable DEFAULT_OUTPUT_DIRECTORY : string.

(** Code that reads and writes the file system and may raise. *)
Definition io (A : Type) : Type := FS -> FS * result A.

Definition io_ret {A} (a : A) : io A := fun fs => (fs, Ok a).
Definition io_lift {A} (r : result A) : io A := fun fs => (fs, r).
Definition io_bind {A C} (m : io A) (f : A -> io C) : io C :=
  fun fs =>
    match m fs with
    | (fs', Ok a) => f a fs'
    | (fs', Err e) => (fs', Err e)
    end.

Notation "'io!' x <- m ; k" := (io_bind m (fun x => k))
  (at level 10, x name, m at level 100, k at level 200).

Definition locate (p : Path) : list string :=
  if anchored p then parts p else (cwd ++ parts p)%list.

Definition stat (k : list string) (fs : FS) : option (node content) :=
  match k with
  | [] => Some Directory
  | _ => fs !! k
  end.

(** [path.exists()] *)
Definition path_exists (p : Path) (fs : FS) : bool :=
  match stat (locate p) fs with Some _ => true | None => false end.

(** [path.unlink()] *)
Definition unlink (p : Path) : io unit :=
  fun fs =>
    match stat (locate p) fs with
    | Some (File _) => (delete (locate p) fs, Ok tt)
    | Some Directory => (fs, Err (OSError "IsADirectoryError"))
    | None => (fs, Err (OSError "FileNotFoundError"))
    end.

(** The directories [prefix/c1], [prefix/c1/c2], ... are created where
    absent; a regular file in the way is an error. *)
Fixpoint make_dirs (prefix rest : list string) (fs : FS)
  : FS * result unit :=
  match rest with
  | [] => (fs, Ok tt)
  | c :: rest' =>
      let k := (prefix ++ [c])%list in
      match fs !! k with
      | Some Directory => make_dirs k rest' fs
      | Some (File _) => (fs, Err (OSError "NotADirectoryError"))
      | None => make_dirs k rest' (<[k := Directory]> fs)
      end
  end.

(** [path.mkdir(parents=True, exist_ok=True)] *)
Definition mkdir_parents (p : Path) : io unit :=
  make_dirs [] (locate p).

(** Opening [p] for writing and storing [c]. *)
Definition write_file (p : Path) (c : content) : io unit :=
  fun fs =>
    match stat (locate p) fs with
    | Some Directory => (fs, Err (OSError "IsADirectoryError"))
    | _ => (<[locate p := File c]> fs, Ok tt)
    end.

(** A library call that writes to [p]. *)
Definition library_write (p : Path) (c : result content) : io unit :=
  io! c <- io_lift c; write_file p c.

(** ** Quantities *)

(** A data frame with the [name] attribute that the code reads and
    sets on it; the frames that pandas returns carry none. *)
Record DataFrame : Type := mkDataFrame {
  df_name : option string;
  df_table : table;
}.

Inductive Quantity : Type :=
| QFrame (df : DataFrame)
| QArray (a : array).

(** [getattr(quantity, "name", None)] *)
Definition quantity_name (q : Quantity) : option string :=
  match q with
  | QFrame df => df_name df
  | QArray a => array_name a
  end.

(** What xarray raises for [array.to_dataframe()] on an array without
    a name. *)
Definition unnamed_array : exn :=
  ValueError ("cannot convert an unnamed DataArray to a DataFrame: "
              ++ "use the ``name`` parameter").

(** [quantity.to_dataframe()] for an array, the frame itself
    otherwise. *)
Definition as_dataframe (q : Quantity) : result DataFrame :=
  match q with
  | QArray a =>
      match array_name a with
      | None => Err unnamed_array
      | Some _ => do t <- to_dataframe a; Ok (mkDataFrame None t)
      end
  | QFrame df => Ok df
  end.

(** ** [sink_to_file] *)

Definition default_filename : string :=
  "{default_output_dir}/{Sector}{year}{Quantity}{suffix}".

(** The suffix with a leading dot: [lsuffix] after the test
    [lsuffix is not None and len(lsuffix) > 0 and lsuffix[0] != "."]. *)
Definition dotted_suffix (lsuffix : pyval) : result pyval :=
  match lsuffix with
  | VNone => Ok VNone
  | VStr EmptyString => Ok lsuffix
  | VStr (String c _ as s) =>
      if Ascii.eqb c "." then Ok lsuffix else Ok (VStr ("." ++ s))
  | VDict [] => Ok lsuffix
  | VDict _ => Err (KeyError "0")
  | VBool _ | VInt _ => Err TypeError
  end.

(** The name used in the path: [str(quantity.name)], or the literal
    [quantity] for a quantity without a name. *)
Definition name_for_path (quantity : Quantity) : string :=
  match quantity_name quantity with
  | None => "quantity"
  | Some n => n
  end.

(** The keyword arguments of the [format] call. *)
Definition format_arguments (name : string) (sector : pyval)
  (Sector : string) (year : Z) (lsuffix : pyval) : dict :=
  [ ("cwd", VStr (path_str (mkPath true cwd)));
    ("quantity", VStr name);
    ("Quantity", VStr (title name));
    ("sector", sector);
    ("Sector", VStr Sector);
    ("year", VInt year);
    ("suffix", lsuffix);
    ("default_output_dir", VStr DEFAULT_OUTPUT_DIRECTORY) ].

(** The path of the output file: lines 105 to 133 of the source, with
    the parameters left for the wrapped function and the overwrite
    flag. *)
Definition resolve (suffix : string) (quantity : Quantity) (year : Z)
  (config : dict) : result (Path * pyval * dict) :=
  let params := config in
  let '(filename, params) :=
    Dict.pop_default "filename" (VStr default_filename) params in
  do filestring <- py_str filename;
  let '(overwrite, params) :=
    Dict.pop_default "overwrite" (VBool false) params in
  let '(sector, params) := Dict.pop_default "sector" (VStr "") params in
  let '(lsuffix, params) := Dict.pop_default "suffix" (VStr suffix) params in
  do lsuffix <- dotted_suffix lsuffix;
  let name := name_for_path quantity in
  do Sector <-
    match sector with
    | VStr s => Ok (title s)
    | _ => Err AttributeError
    end;
  do formatted <-
    format filestring (format_arguments name sector Sector year lsuffix);
  Ok (Path_of formatted, overwrite, params).

Definition already_exists (filename : Path) : exn :=
  IOError ("File " ++ path_str filename
           ++ " already exists and overwrite argument has not been given.").

(** The overwrite policy: lines 134 to 143. *)
Definition check_overwrite (filename : Path) (overwrite : pyval) : io unit :=
  fun fs =>
    if path_exists filename fs then
      if truthy overwrite then unlink filename fs
      else (fs, Err (already_exists filename))
    else (fs, Ok tt).

(** Lines 145 to 147: the parent directories, the wrapped function,
    and the path as the result. *)
Definition write_out (function : Quantity -> Path -> dict -> io unit)
  (quantity : Quantity) (filename : Path) (params : dict) : io Path :=
  io! _ <- mkdir_parents (path_parent filename);
  io! _ <- function quantity filename params;
  io_ret filename.

(** The function that the decorator returns for [function]. *)
Definition sink_to_file (suffix : string)
  (function : Quantity -> Path -> dict -> io unit)
  (quantity : Quantity) (year : Z) (config : dict) : io Path :=
  io! r <- io_lift (resolve suffix quantity year config);
  let '(filename, overwrite, params) := r in
  io! _ <- check_overwrite filename overwrite;
  write_out function quantity filename params.

(** ** The format writers *)

(** The keyword arguments that [to_csv] hands to pandas: [params]
    after [params.update({"float_format": "%.11f"})]. *)
Definition csv_keywords (params : dict) : dict :=
  Dict.update params [("float_format", VStr "%.11f")].

Definition to_csv (quantity : Quantity) (filename : Path) (params : dict)
  : io unit :=
  let params := csv_keywords params in
  io! quantity <- io_lift (as_dataframe quantity);
  library_write filename (csv_encode (df_table quantity) params).

Definition to_netcdf (quantity : Quantity) (filename : Path) (params : dict)
  : io unit :=
  let name := name_for_path quantity in
  let dataset :=
    match quantity with
    | QFrame df => from_dataframe (df_table df)
    | QArray a => Dataset name a
    end in
  library_write filename (netcdf_encode dataset params).

(** The handler of [ModuleNotFoundError] logs and raises the exception
    again, so the exception leaves the function as it came. *)
Definition to_excel (quantity : Quantity) (filename : Path) (params : dict)
  : io unit :=
  io! quantity <- io_lift (as_dataframe quantity);
  library_write filename (excel_encode (df_table quantity) params).

(** ** The registry and the sinks the factory returns *)

(** The functions registered as sinks, each wrapped by [sink_to_file]. *)
Inductive writer : Type := Wcsv | Wnetcdf | Wexcel.

Definition writer_suffix (w : writer) : string :=
  match w with
  | Wcsv => ".csv"
  | Wnetcdf => ".nc"
  | Wexcel => ".xlsx"
  end.

Definition writer_function (w : writer)
  : Quantity -> Path -> dict -> io unit :=
  match w with
  | Wcsv => to_csv
  | Wnetcdf => to_netcdf
  | Wexcel => to_excel
  end.

(** What a registered name stands for: a function, or the class. *)
Inductive implementation : Type :=
| Function (w : writer)
| Class_YearlyAggregate.

(** Modelled from the spec: the decorator [registrator] of
    [muse.registration] is not among the sources.  The registry holds
    each implementation under the names given at its registration. *)
Definition OUTPUT_SINKS : list (string * implementation) :=
  [ ("csv", Function Wcsv);
    ("netcdf", Function Wnetcdf); ("nc", Function Wnetcdf);
    ("excel", Function Wexcel); ("xlsx", Function Wexcel);
    ("aggregate", Class_YearlyAggregate) ].

(** [registry[name]] *)
Fixpoint lookup_sink (registry : list (string * implementation))
  (name : string) : result implementation :=
  match registry with
  | [] => Err (KeyError name)
  | (n, i) :: registry' =>
      if String.eqb name n then Ok i else lookup_sink registry' name
  end.

(** A sink as the factory returns it: [functools.partial] of a
    decorated writer with its keyword arguments, or an instance of
    [YearlyAggregate] with its attributes. *)
Inductive Sink : Type :=
| Partial (w : writer) (keywords : dict)
| YearlyAggregate (sink : Sink) (aggregate : option DataFrame) (axis : pyval).

(** ** [YearlyAggregate.__init__] *)

(** Lines 228 to 231: without a [final_sink] the keyword arguments are
    the inner configuration; with one, they go into its [sink]
    mapping. *)
Definition merge_kwargs (final_sink : pyval) (kwargs : dict) : result dict :=
  match final_sink with
  | VNone => Ok kwargs
  | VDict d =>
      match Dict.get "sink" d with
      | None => Err (KeyError "sink")
      | Some (VDict sink) =>
          Ok (Dict.set "sink" (VDict (Dict.update sink kwargs)) d)
      | Some _ => Err AttributeError
      end
  | _ => Err TypeError
  end.

(** The test of lines 232 to 235, negated: [final_sink] has an
    [overwrite] of its own, or its [sink] is a mapping that has one. *)
Definition has_overwrite (final_sink : dict) : bool :=
  Dict.contains "overwrite" final_sink
  || match Dict.get "sink" final_sink with
     | Some (VDict sink) => Dict.contains "overwrite" sink
     | _ => false
     end.

(** Lines 232 to 236. *)
Definition default_overwrite (final_sink : dict) : dict :=
  if negb (has_overwrite final_sink)
  then Dict.set "overwrite" (VBool true) final_sink
  else final_sink.

(** The configuration that the constructor hands to [factory]. *)
Definition inner_configuration (final_sink : pyval) (kwargs : dict)
  : result dict :=
  do final_sink <- merge_kwargs final_sink kwargs;
  Ok (default_overwrite final_sink).

(** The constructor called with the keyword arguments [params];
    [factory] is the function that builds the inner sink. *)
Definition YearlyAggregate_init
  (factory : dict -> pyval -> option (result Sink)) (params : dict)
  : option (result Sink) :=
  let final_sink := Dict.get_default "final_sink" VNone params in
  let sector := Dict.get_default "sector" (VStr "") params in
  let axis := Dict.get_default "axis" (VStr "year") params in
  let kwargs :=
    Dict.remove "axis" (Dict.remove "sector"
      (Dict.remove "final_sink" params)) in
  match inner_configuration final_sink kwargs with
  | Err e => Some (Err e)
  | Ok final_sink =>
      match factory final_sink sector with
      | None => None
      | Some (Err e) => Some (Err e)
      | Some (Ok sink) => Some (Ok (YearlyAggregate sink None axis))
      end
  end.

(** ** [factory] *)

Definition duplicate_settings : exn :=
  ValueError "duplicate settings in output section".

(** [sink_name] without a leading dot: lines 72 and 73. *)
Definition strip_dot (sink_name : pyval) : result string :=
  match sink_name with
  | VStr EmptyString => Err IndexError
  | VStr (String c rest as s) => Ok (if Ascii.eqb c "." then rest else s)
  | VDict _ => Err (KeyError "0")
  | _ => Err TypeError
  end.

(** [sector_name.lower()] *)
Definition lower_text (sector_name : pyval) : result string :=
  match sector_name with
  | VStr s => Ok (lower s)
  | _ => Err AttributeError
  end.

(** Lines 43 to 74: the registered implementation and the keyword
    arguments it will get. *)
Definition configure (registry : list (string * implementation))
  (parameters : dict) (sector_name : pyval)
  : result (implementation * dict) :=
  let config := parameters in
  let config := Dict.remove "quantity" config in
  let '(sink_spec, config) := Dict.pop_default "sink" VNone config in
  do params <-
    normalize config sink_spec (Dict.get_default "filename" VNone config);
  do popped <- Dict.pop "name" params;
  let '(sink_name, params) := popped in
  if negb (length (Dict.intersection params config) =? 0)%nat
  then Err duplicate_settings
  else
    let params := Dict.update params config in
    do sector <- lower_text sector_name;
    let params := Dict.set "sector" (VStr sector) params in
    do sink_name <- strip_dot sink_name;
    do sink <- lookup_sink registry sink_name;
    Ok (sink, params).

(** [factory]; the class builds its inner sink by a call of [factory]
    on the configuration below it, which [fuel] bounds.  [None] stands
    for fuel that ran out, never for a result of the code. *)
Fixpoint factory (fuel : nat) (registry : list (string * implementation))
  (parameters : dict) (sector_name : pyval) : option (result Sink) :=
  match fuel with
  | O => None
  | S fuel =>
      match configure registry parameters sector_name with
      | Err e => Some (Err e)
      | Ok (Function w, params) => Some (Ok (Partial w params))
      | Ok (Class_YearlyAggregate, params) =>
          YearlyAggregate_init (factory fuel registry) params
      end
  end.

(** ** Calling a sink *)

Definition label_in (label : string) (labels : list string) : bool :=
  existsb (String.eqb label) labels.

(** [level in dataframe.index.names] *)
Definition level_in (level : option string) (names : list (option string))
  : bool :=
  existsb (fun name =>
             match level, name with
             | Some l, Some n => String.eqb l n
             | None, None => true
             | _, _ => false
             end) names.

(** [dataframe.xs(year, level=level)] as a frame. *)
Definition cross_section (level : option string) (year : Z)
  (dataframe : DataFrame) : result DataFrame :=
  do t <- xs year level (df_table dataframe);
  Ok (mkDataFrame None t).

(** Lines 246 to 249: the rows of [year] along [axis], as a column or
    as a level of the index; the frame itself when [axis] is neither.
    A string is looked for among the columns, then among the names of
    the index; [None] is no column and is the name of a level without
    name; a number is neither; a mapping cannot be hashed, so that the
    test of line 246 raises. *)
Definition filter_year (axis : pyval) (year : Z) (dataframe : DataFrame)
  : result DataFrame :=
  let names := index_names (df_table dataframe) in
  match axis with
  | VStr axis =>
      if label_in axis (columns (df_table dataframe)) then
        Ok (mkDataFrame None (select_eq axis year (df_table dataframe)))
      else if level_in (Some axis) names then
        cross_section (Some axis) year dataframe
      else Ok dataframe
  | VNone =>
      if level_in None names then cross_section None year dataframe
      else Ok dataframe
  | VBool _ | VInt _ => Ok dataframe
  | VDict _ => Err TypeError
  end.

(** Lines 250 to 253. *)
Definition accumulate (aggregate : option DataFrame) (dataframe : DataFrame)
  : DataFrame :=
  match aggregate with
  | None => dataframe
  | Some aggregate =>
      mkDataFrame None (concat (df_table aggregate) (df_table dataframe))
  end.

(** Lines 255 and 256. *)
Definition rename_like (data : Quantity) (aggregate : DataFrame)
  : DataFrame :=
  match quantity_name data with
  | Some n => mkDataFrame (Some n) (df_table aggregate)
  | None => aggregate
  end.

(** Lines 242 to 249: the slice of [data] that a call for [year] adds,
    or the exception of the conversion or of the filter. *)
Definition year_slice (axis : pyval) (data : Quantity) (year : Z)
  : result DataFrame :=
  do dataframe <- as_dataframe data;
  filter_year axis year dataframe.

(** [sink(data, year=year)]: the sink after the call, the file system
    after it, and the path returned or the exception raised.  A
    [Partial] passes its keywords on, the call's [year] replacing one
    of its own, and cannot take a second [quantity].  An aggregate
    whose conversion or filter raises has assigned nothing and called
    nothing. *)
Fixpoint call (self : Sink) (data : Quantity) (year : Z) (fs : FS)
  : Sink * (FS * result Path) :=
  match self with
  | Partial w keywords =>
      (self,
       if Dict.contains "quantity" keywords then (fs, Err TypeError)
       else sink_to_file (writer_suffix w) (writer_function w)
              data year (Dict.remove "year" keywords) fs)
  | YearlyAggregate sink aggregate axis =>
      match year_slice axis data year with
      | Err e => (self, (fs, Err e))
      | Ok dataframe =>
          let aggregate := accumulate aggregate dataframe in
          let aggregate := rename_like data aggregate in
          let '(sink, out) := call sink (QFrame aggregate) year fs in
          (YearlyAggregate sink (Some aggregate) axis, out)
      end
  end.

(** A run of calls, one per simulated year, each on the sink and the
    file system the previous one left; the outcomes come in call
    order. *)
Fixpoint run (self : Sink) (calls : list (Quantity * Z)) (fs : FS)
  : Sink * FS * list (result Path) :=
  match calls with
  | [] => (self, fs, [])
  | (data, year) :: calls' =>
      let '(self', (fs', r)) := call self data year fs in
      let '(self'', fs'', rs) := run self' calls' fs' in
      (self'', fs'', r :: rs)
  end.

(** [depth] aggregates around a sink, as the factory leaves them. *)
Fixpoint aggregates (depth : nat) (inner : Sink) : Sink :=
  match depth with
  | O => inner
  | S depth' => YearlyAggregate (aggregates depth' inner) None (VStr "year")
  end.

(** ** The accumulated container in closed form *)

(** The concatenation of slices in their order: the first slice as it
    is, each later one appended by [pd.concat]. *)
Definition concatenation (slices : list DataFrame) : option DataFrame :=
  match slices with
  | [] => None
  | first :: rest =>
      Some (fold_left
              (fun acc s =>
                 mkDataFrame None (concat (df_table acc) (df_table s)))
              rest first)
  end.

(** The slices of [calls], those of calls whose conversion or filter
    raises left out. *)
Fixpoint slices (axis : pyval) (calls : list (Quantity * Z))
  : list DataFrame :=
  match calls with
  | [] => []
  | (data, year) :: calls' =>
      match year_slice axis data year with
      | Ok dataframe => dataframe :: slices axis calls'
      | Err _ => slices axis calls'
      end
  end.

(** The container after [calls] whose slices were all taken: the
    concatenation of their slices, under the name of the last quantity
    if it has one; none before the first call. *)
Definition container (axis : pyval) (calls : list (Quantity * Z))
  : option DataFrame :=
  match last calls with
  | None => None
  | Some (data, _) => option_map (rename_like data)
                        (concatenation (slices axis calls))
  end.

(** What the inner sink is called with along a run of [calls] that
    follows the calls [before], all with their slices taken: the whole
    container after each call, with the year of that call. *)
Fixpoint delegated (axis : pyval) (before calls : list (Quantity * Z))
  : list (Quantity * Z) :=
  match calls with
  | [] => []
  | (data, year) :: calls' =>
      let sofar := (before ++ [(data, year)])%list in
      (match container axis sofar with
       | Some aggregate => QFrame aggregate
       | None => data
       end, year) :: delegated axis sofar calls'
  end.

End Sinks.

(** ** A backend of rows *)

(** Frames as lists of rows of integers, each row giving its value
    under every index level and column; a frame without levels has the
    default index, which numbers the rows and has no name.  This
    backend makes the sinks run on concrete data; written files hold
    the format, the frame and the keyword arguments of the library
    call. *)
Module Rows.

Record frame : Type := mkFrame {
  levels : list string;
  cols : list string;
  rows : list (list (string * Z));
}.

Fixpoint cell (label : string) (row : list (string * Z)) : option Z :=
  match row with
  | [] => None
  | (l, v) :: row' => if String.eqb label l then Some v else cell label row'
  end.

Definition row_has (label : string) (value : Z) (row : list (string * Z))
  : bool :=
  match cell label row with
  | Some v => v =? value
  | None => false
  end.

Definition drop_label (label : string) (row : list (string * Z))
  : list (string * Z) :=
  List.filter (fun lv => negb (String.eqb label (fst lv))) row.

Definition select (axis : string) (year : Z) (f : frame) : frame :=
  mkFrame (levels f) (cols f) (List.filter (row_has axis year) (rows f)).

(** [df.index.names] *)
Definition names (f : frame) : list (option string) :=
  match levels f with
  | [] => [None]
  | ls => List.map Some ls
  end.

(** [df.xs(year, level=level)].  With a level, pandas wants a
    [MultiIndex] and a year that the level has, and drops the level.
    Without one, [year] is looked up among the labels of the rows: the
    default index has the positions of the rows as labels; a row that
    is found comes back as a series, and a lookup in a [MultiIndex] is
    by its first level, both outside the modelled fragment. *)
Definition cross_section (year : Z) (level : option string) (f : frame)
  : result frame :=
  match level with
  | Some axis =>
      if (length (levels f) <=? 1)%nat then Err TypeError
      else if negb (label_in axis (levels f))
      then Err (KeyError ("Level " ++ axis ++ " not found"))
      else
        match List.filter (row_has axis year) (rows f) with
        | [] => Err (KeyError (str_of_int year))
        | selected =>
            Ok (mkFrame
                  (List.filter (fun l => negb (String.eqb axis l)) (levels f))
                  (cols f) (List.map (drop_label axis) selected))
        end
  | None =>
      match levels f with
      | [] =>
          if (0 <=? year) && (year <? Z.of_nat (length (rows f)))
          then Err Unsupported
          else Err (KeyError (str_of_int year))
      | _ => Err Unsupported
      end
  end.

Definition append (a b : frame) : frame :=
  mkFrame (levels a)
          (cols a ++ List.filter (fun c => negb (label_in c (cols a))) (cols b))
          (rows a ++ rows b).

Inductive format_tag : Type := Csv | Excel | Netcdf.

#[export] Instance backend : Backend := {|
  table := frame;
  array := option string * frame;
  dataset := frame;
  content := format_tag * frame * dict;
  columns := cols;
  index_names := names;
  select_eq := select;
  xs := cross_section;
  concat := append;
  array_name := fst;
  to_dataframe := fun a => Ok (snd a);
  from_dataframe := fun f => f;
  Dataset := fun _ a => snd a;
  csv_encode := fun f kw => Ok (Csv, f, kw);
  excel_encode := fun f kw => Ok (Excel, f, kw);
  netcdf_encode := fun f kw => Ok (Netcdf, f, kw);
|}.

(** Two years of a quantity with a [year] column. *)
Definition capacity : frame :=
  mkFrame ["asset"] ["year"; "capacity"]
    [ [("asset", 1); ("year", 2020); ("capacity", 10)];
      [("asset", 2); ("year", 2020); ("capacity", 20)];
      [("asset", 1); ("year", 2025); ("capacity", 15)] ].

(** The same quantity with [year] as a level of the index. *)
Definition capacity_by_year : frame :=
  mkFrame ["year"; "asset"] ["capacity"]
    [ [("year", 2020); ("asset", 1); ("capacity", 10)];
      [("year", 2025); ("asset", 1); ("capacity", 15)] ].

(** A quantity without a [year] anywhere. *)
Definition prices : frame :=
  mkFrame ["commodity"] ["price"]
    [ [("commodity", 1); ("price", 3)]; [("commodity", 2); ("price", 4)] ].


Definition data_frame (n : option string) (f : frame) : DataFrame :=
  mkDataFrame n f.

Definition named (n : string) (f : frame) : Quantity :=
  QFrame (data_frame (Some n) f).

Definition unnamed (f : frame) : Quantity :=
  QFrame (data_frame None f).

End Rows.

(** ** Nested aggregates *)

(** The sink entry [{aggregate: {aggregate: ... name}}] with [depth]
    mappings around the name, and the normal form expected of it. *)
Fixpoint nested (depth : nat) (name : string) : pyval :=
  match depth with
  | O => VStr name
  | S depth' => VDict [("aggregate", nested depth' name)]
  end.

Fixpoint wrapped (depth : nat) (name : string) : dict :=
  match depth with
  | O => [("name", VStr name)]
  | S depth' =>
      [("name", VStr "aggregate");
       ("final_sink", VDict [("sink", VDict (wrapped depth' name))])]
  end.

(** ** The wording of the specification *)

(** The sink name for an absent [sink] entry as the specification words
    it: the suffix of the configured filename, and [csv] when there is
    no filename or no suffix. *)
Definition spec_inferred_name (filename : option string) : string :=
  match filename with
  | None => "csv"
  | Some f =>
      let suffix := path_suffix (Path_of f) in
      if String.eqb suffix "" then "csv" else suffix
  end.

(** The keyword arguments of the CSV writer as the specification words
    them: eleven digits unless the caller gives a format. *)
Definition spec_csv_keywords (params : dict) : dict :=
  if Dict.contains "float_format" params then params
  else Dict.set "float_format" (VStr "%.11f") params.


(** ** Further views of the sinks *)

(** What each writer hands to its library call, or the exception of
    that call: lines 166 to 169, 184 to 190 and 207 to 210. *)
Definition writer_content `{B : Backend} (w : writer) (quantity : Quantity)
  (params : dict) : result content :=
  match w with
  | Wcsv =>
      do dataframe <- as_dataframe quantity;
      csv_encode (df_table dataframe) (csv_keywords params)
  | Wnetcdf =>
      netcdf_encode
        match quantity with
        | QFrame df => from_dataframe (df_table df)
        | QArray a => Dataset (name_for_path quantity) a
        end params
  | Wexcel =>
      do dataframe <- as_dataframe quantity;
      excel_encode (df_table dataframe) params
  end.

(** The backend of rows on a system without the package that pandas
    needs to write spreadsheets. *)
Definition backend_without_excel : Backend := {|
  table := Rows.frame;
  array := option string * Rows.frame;
  dataset := Rows.frame;
  content := Rows.format_tag * Rows.frame * dict;
  columns := Rows.cols;
  index_names := Rows.names;
  select_eq := Rows.select;
  xs := Rows.cross_section;
  concat := Rows.append;
  array_name := fst;
  to_dataframe := fun a => Ok (snd a);
  from_dataframe := fun f => f;
  Dataset := fun _ a => snd a;
  csv_encode := fun f kw => Ok (Rows.Csv, f, kw);
  excel_encode := fun _ _ =>
    Err (ModuleNotFoundError "No module named 'openpyxl'");
  netcdf_encode := fun f kw => Ok (Rows.Netcdf, f, kw);
|}.

(** A sink without what it has accumulated. *)
Fixpoint forget `{B : Backend} (s : Sink) : Sink :=
  match s with
  | Partial w keywords => Partial w keywords
  | YearlyAggregate sink _ axis => YearlyAggregate (forget sink) None axis
  end.

(** A template without braces. *)
Fixpoint no_braces (template : string) : bool :=
  match template with
  | EmptyString => true
  | String c rest =>
      negb (Ascii.eqb c "{") && negb (Ascii.eqb c "}") && no_braces rest
  end.

(** * Properties *)

(** ** Dictionaries *)

Lemma get_set_eq k v d : Dict.get k (Dict.set k v d) = Some v.
Proof.
  induction d as [|[k' v'] d IH]; simpl.
  - by rewrite String.eqb_refl.
  - destruct (String.eqb k k') eqn:E; simpl; rewrite ?String.eqb_refl, ?E; done.
Qed.

Lemma get_set_ne k k' v d :
  k <> k' -> Dict.get k (Dict.set k' v d) = Dict.get k d.
Proof.
  intros Hne. apply String.eqb_neq in Hne.
  induction d as [|[k0 v0] d IH]; simpl.
  - by rewrite Hne.
  - destruct (String.eqb k' k0) eqn:E; simpl.
    + apply String.eqb_eq in E as <-. by rewrite Hne.
    + by rewrite IH.
Qed.

Lemma get_remove_eq k d : Dict.get k (Dict.remove k d) = None.
Proof.
  induction d as [|[k' v'] d IH]; simpl; [done|].
  destruct (String.eqb k k') eqn:E; simpl; [done|]. by rewrite E.
Qed.

Lemma get_remove_ne k k' d :
  k <> k' -> Dict.get k (Dict.remove k' d) = Dict.get k d.
Proof.
  intros Hne. induction d as [|[k0 v0] d IH]; simpl; [done|].
  destruct (String.eqb k' k0) eqn:E; simpl.
  - apply String.eqb_eq in E as <-.
    apply String.eqb_neq in Hne. by rewrite Hne.
  - by rewrite IH.
Qed.

Lemma contains_keys k d : Dict.contains k d = true <-> In k (Dict.keys d).
Proof.
  unfold Dict.contains. induction d as [|[k' v'] d IH]; simpl.
  - split; [done | tauto].
  - destruct (String.eqb k k') eqn:E.
    + apply String.eqb_eq in E. split; [intros _; by left | done].
    + apply String.eqb_neq in E. rewrite IH. split; [tauto|].
      intros [?|?]; [congruence | done].
Qed.


(** ** Normalisation of the sink entry *)

(** [normalize] satisfies the equation of the source. *)
Lemma normalize_eq config params filename :
  normalize config params filename
  = normalize_body config (normalize config) params filename.
Proof.
  destruct params as [| b | z | s | d]; try reflexivity.
  1-3: simpl; unfold normalize_body, inferred_name;
    destruct (filename_suffix filename); reflexivity.
  cbn -[String.eqb Dict.get]. unfold normalize_body. cbn -[String.eqb Dict.get].
  set (aggregate_of := fix aggregate_of (l : dict) := _).
  assert (aggregate_of d
          = option_map (fun v => normalize config v filename)
              (Dict.get "aggregate" d)) as ->.
  { unfold aggregate_of.
    induction d as [|[k v] d IH]; cbn -[String.eqb]; [done|].
    destruct (String.eqb "aggregate" k); [done | exact IH]. }
  destruct (Dict.get "aggregate" d); reflexivity.
Qed.

Lemma normalize_mapping config d filename :
  normalize config (VDict d) filename
  = match Dict.get "aggregate" d with
    | Some inner => wrap_aggregate d (normalize config inner filename)
    | None => Ok d
    end.
Proof. by rewrite normalize_eq. Qed.

Lemma normalize_nested config filename depth name :
  normalize config (nested depth name) filename = Ok (wrapped depth name).
Proof.
  induction depth as [|depth IH]; [done|].
  cbn [nested]. rewrite normalize_mapping.
  change (Dict.get "aggregate" [("aggregate", nested depth name)])
    with (Some (nested depth name)).
  cbv beta iota. rewrite IH. reflexivity.
Qed.

(** C5: a sink mapping with an [aggregate] entry normalises to the sink
    name [aggregate] with a [final_sink] that holds, under [sink], the
    normalised value of that entry, and the [aggregate] entry itself is
    gone; the nested value is normalised by the same function, so the
    wrapping repeats at every depth: [depth] mappings around a name
    normalise to [depth] wrappings around it.  An exception of the
    nested normalisation is the exception of the whole. *)
Theorem normalize_wraps_aggregate config filename d inner depth name
  (Hagg : Dict.get "aggregate" d = Some inner) :
  match normalize config inner filename with
  | Ok final =>
      exists r,
        normalize config (VDict d) filename = Ok r
        /\ Dict.get "name" r = Some (VStr "aggregate")
        /\ Dict.get "final_sink" r = Some (VDict [("sink", VDict final)])
        /\ Dict.contains "aggregate" r = false
  | Err e => normalize config (VDict d) filename = Err e
  end
  /\ normalize config (nested depth name) filename = Ok (wrapped depth name).
Proof.
  split.
  - rewrite normalize_mapping, Hagg. unfold wrap_aggregate.
    destruct (normalize config inner filename) as [final|e]; simpl; [|done].
    eexists. split; [reflexivity|]. repeat split.
    + rewrite get_set_ne by done. rewrite get_remove_ne by done.
      apply get_set_eq.
    + apply get_set_eq.
    + unfold Dict.contains. rewrite get_set_ne by done.
      by rewrite get_remove_eq.
  - apply normalize_nested.
Qed.

Lemma normalize_wraps_aggregate_witness :
  exists r,
    normalize [] (VDict [("aggregate", VDict [("aggregate", VStr "csv")]);
                         ("overwrite", VBool true)]) VNone = Ok r
    /\ Dict.get "name" r = Some (VStr "aggregate")
    /\ Dict.get "final_sink" r
       = Some (VDict [("sink",
            VDict [("name", VStr "aggregate");
                   ("final_sink",
                    VDict [("sink", VDict [("name", VStr "csv")])])])])
    /\ Dict.contains "aggregate" r = false.
Proof.
  exact (proj1 (normalize_wraps_aggregate []
                  VNone
                  [("aggregate", VDict [("aggregate", VStr "csv")]);
                   ("overwrite", VBool true)]
                  (VDict [("aggregate", VStr "csv")]) 2 "csv" eq_refl)).
Defined.

Lemma filename_suffix_text f :
  filename_suffix (VStr f)
  = Ok (VStr (if String.eqb f "" then "csv" else path_suffix (Path_of f))).
Proof.
  unfold filename_suffix. simpl.
  destruct (String.eqb f ""); reflexivity.
Qed.

(** C4, as the code has it: a mapping without an [aggregate] entry is
    used as it is, a string is the sink name, and for an absent entry
    the name is the [suffix] of the configuration where it has one
    ([csv] if that is empty) and otherwise the suffix of the filename,
    with [csv] for no filename or no suffix.  The string [nc] alone
    selects the NetCDF writer. *)
Theorem normalize_sink_entry `{B : Backend} config (filename : option string)
  d (Hd : Dict.get "aggregate" d = None) :
  let fn := match filename with Some f => VStr f | None => VNone end in
  normalize config (VDict d) fn = Ok d
  /\ (forall s, normalize config (VStr s) fn = Ok [("name", VStr s)])
  /\ normalize config VNone fn
     = Ok [("name",
            match Dict.get "suffix" config with
            | Some v => if truthy v then v else VStr "csv"
            | None => VStr (spec_inferred_name filename)
            end)]
  /\ (forall fuel sector,
        factory (S fuel) OUTPUT_SINKS [("sink", VStr "nc")] (VStr sector)
        = Some (Ok (Partial Wnetcdf [("sector", VStr (lower sector))]))).
Proof.
  intros fn. split; [|split; [|split]].
  - by rewrite normalize_mapping, Hd.
  - done.
  - cbn [normalize]. unfold inferred_name, Dict.get_default.
    assert (exists dflt, filename_suffix fn = Ok (VStr dflt)
              /\ (if truthy (VStr dflt) then VStr dflt else VStr "csv")
                 = VStr (spec_inferred_name filename)) as (dflt & -> & Hdflt).
    { destruct filename as [f|]; subst fn.
      - rewrite filename_suffix_text. eexists; split; [done|].
        cbn [spec_inferred_name truthy].
        destruct (String.eqb f "") eqn:Ef.
        + apply String.eqb_eq in Ef as ->. reflexivity.
        + destruct (String.eqb (path_suffix (Path_of f)) ""); reflexivity.
      - eexists; split; [reflexivity|]. reflexivity. }
    cbn [rbind]. destruct (Dict.get "suffix" config) as [v|]; [done|].
    by rewrite Hdflt.
  - intros fuel sector. reflexivity.
Qed.

Lemma normalize_sink_entry_witness :
  normalize [("filename", VStr "out.nc")]
    (VDict [("name", VStr "excel"); ("index", VBool false)]) (VStr "out.nc")
  = Ok [("name", VStr "excel"); ("index", VBool false)]
  /\ normalize [("filename", VStr "out.nc")] VNone (VStr "out.nc")
     = Ok [("name", VStr ".nc")].
Proof.
  pose proof (normalize_sink_entry (B := Rows.backend)
                [("filename", VStr "out.nc")] (Some "out.nc")
                [("name", VStr "excel"); ("index", VBool false)] eq_refl)
    as (H1 & _ & H3 & _).
  split; [exact H1 | exact H3].
Defined.

(** C4 as worded fails where the configuration has a [suffix]: the sink
    name of an absent entry is then that value, whatever the suffix of
    the filename. *)
Lemma normalize_suffix_entry_counterexample :
  let config := [("filename", VStr "out.nc"); ("suffix", VStr "xlsx")] in
  normalize config VNone (VStr "out.nc") = Ok [("name", VStr "xlsx")]
  /\ spec_inferred_name (Some "out.nc") = ".nc"
  /\ normalize config VNone (VStr "out.nc")
     <> Ok [("name", VStr (spec_inferred_name (Some "out.nc")))]
  /\ factory (B := Rows.backend) 1 OUTPUT_SINKS config (VStr "power")
     = Some (Ok (Partial Wexcel
                   [("filename", VStr "out.nc"); ("suffix", VStr "xlsx");
                    ("sector", VStr "power")])).
Proof.
  repeat split; try reflexivity. intros H. discriminate H.
Qed.

(** ** Duplicate settings *)




(** ** The file system *)

Section FileSink.

Local Open Scope list_scope.

Context {B : Backend}.
Variable cwd : list string.
Variable DEFAULT_OUTPUT_DIRECTORY : string.

(** [make_dirs] succeeds when no regular file is in the way; it leaves
    a directory at every component and touches nothing else. *)
Lemma make_dirs_spec (prefix rest : list string) (fs : FS) :
  (forall k c, k <> [] -> k `prefix_of` rest ->
               fs !! (prefix ++ k) <> Some (File c)) ->
  exists fs',
    make_dirs prefix rest fs = (fs', Ok tt)
    /\ (forall k, k <> [] -> k `prefix_of` rest ->
                  fs' !! (prefix ++ k) = Some Directory)
    /\ (forall k', (forall k, k <> [] -> k `prefix_of` rest ->
                              k' <> prefix ++ k) ->
                   fs' !! k' = fs !! k')
    /\ ((forall k, k <> [] -> k `prefix_of` rest ->
                   fs !! (prefix ++ k) = Some Directory) -> fs' = fs).
Proof.
  revert prefix fs. induction rest as [|c rest IH]; intros prefix fs Hfile.
  - exists fs. cbn. repeat split; try done.
    intros k Hk Hpre. apply prefix_nil_inv in Hpre. done.
  - cbn [make_dirs].
    assert (forall k, k <> [] -> k `prefix_of` rest ->
              (prefix ++ [c]) ++ k = prefix ++ c :: k
              /\ c :: k `prefix_of` c :: rest) as Hshift.
    { intros k _ Hk. split; [by rewrite <- app_assoc | by apply prefix_cons]. }
    assert (forall k, k <> [] -> k `prefix_of` c :: rest ->
              k = [c] \/ exists k0, k0 <> [] /\ k0 `prefix_of` rest
                                   /\ k = c :: k0) as Hcases.
    { intros [|x k0] Hk Hpre; [done|].
      pose proof (prefix_cons_inv_1 _ _ _ _ Hpre) as ->.
      apply prefix_cons_inv_2 in Hpre.
      destruct k0 as [|y k0]; [by left | right].
      exists (y :: k0). done. }
    assert ([c] `prefix_of` c :: rest) as Hc
      by (apply prefix_cons, prefix_nil).
    assert (forall k, k <> [] -> prefix ++ [c] <> (prefix ++ [c]) ++ k)
      as Hfresh.
    { intros k Hk Heq. apply (f_equal length) in Heq.
      rewrite !length_app in Heq. destruct k; [done | simpl in Heq; lia]. }
    destruct (fs !! (prefix ++ [c])) as [[c0|]|] eqn:Hk0.
    + exfalso. by apply (Hfile [c] c0).
    + destruct (IH (prefix ++ [c]) fs) as (fs' & Hrun & Hdirs & Hother & Hid).
      { intros k c0 Hk Hpre. destruct (Hshift k Hk Hpre) as [-> Hp].
        by apply Hfile. }
      exists fs'. split; [done|]. split; [|split].
      * intros k Hk Hpre. destruct (Hcases k Hk Hpre) as [->|(k0 & ? & ? & ->)].
        -- rewrite Hother; [done|]. intros k ? _. by apply Hfresh.
        -- rewrite <- (proj1 (Hshift k0 ltac:(done) ltac:(done))).
           by apply Hdirs.
      * intros k' Hk'. apply Hother. intros k Hk Hpre.
        destruct (Hshift k Hk Hpre) as [-> Hp]. by apply Hk'.
      * intros Hall. apply Hid. intros k Hk Hpre.
        destruct (Hshift k Hk Hpre) as [-> Hp]. by apply Hall.
    + destruct (IH (prefix ++ [c]) (<[prefix ++ [c] := Directory]> fs))
        as (fs' & Hrun & Hdirs & Hother & Hid).
      { intros k c0 Hk Hpre. rewrite lookup_insert_ne by by apply Hfresh.
        destruct (Hshift k Hk Hpre) as [-> Hp]. by apply Hfile. }
      exists fs'. split; [done|]. split; [|split].
      * intros k Hk Hpre. destruct (Hcases k Hk Hpre) as [->|(k0 & ? & ? & ->)].
        -- rewrite Hother; [by rewrite lookup_insert_eq|].
           intros k ? _. by apply Hfresh.
        -- rewrite <- (proj1 (Hshift k0 ltac:(done) ltac:(done))).
           by apply Hdirs.
      * intros k' Hk'. rewrite Hother.
        -- apply lookup_insert_ne. intros <-. by apply (Hk' [c]).
        -- intros k Hk Hpre.
           destruct (Hshift k Hk Hpre) as [-> Hp]. by apply Hk'.
      * intros Hall. specialize (Hall [c] ltac:(done) Hc). congruence.
Qed.

Lemma mkdir_parents_spec (p : Path) (fs : FS) :
  (forall k c, k <> [] -> k `prefix_of` locate cwd p ->
               fs !! k <> Some (File c)) ->
  exists fs',
    mkdir_parents cwd p fs = (fs', Ok tt)
    /\ (forall k, k <> [] -> k `prefix_of` locate cwd p ->
                  fs' !! k = Some Directory)
    /\ (forall k, ~ k `prefix_of` locate cwd p -> fs' !! k = fs !! k)
    /\ ((forall k, k <> [] -> k `prefix_of` locate cwd p ->
                   fs !! k = Some Directory) -> fs' = fs).
Proof.
  intros Hfile. unfold mkdir_parents.
  destruct (make_dirs_spec [] (locate cwd p) fs Hfile)
    as (fs' & Hrun & Hdirs & Hother & Hid).
  exists fs'. repeat split; try done.
  intros k Hk. apply Hother. intros k0 _ Hpre ->. by apply Hk.
Qed.



End FileSink.


(** ** The CSV writer *)

Lemma get_update_last d k v :
  Dict.get k (Dict.update d [(k, v)]) = Some v.
Proof. apply get_set_eq. Qed.

(** C6, as the code has it: [to_csv] always asks pandas for eleven
    digits after the decimal point.  A [float_format] of the caller is
    replaced by it; every other keyword reaches pandas as given. *)
Theorem to_csv_float_format `{B : Backend} (cwd : list string)
  (quantity : Quantity) (filename : Path) (params : dict) (k : string)
  (Hk : k <> "float_format") :
  Dict.get "float_format" (csv_keywords params) = Some (VStr "%.11f")
  /\ Dict.get k (csv_keywords params) = Dict.get k params
  /\ to_csv cwd quantity filename params
     = io_bind (io_lift (as_dataframe quantity))
         (fun dataframe =>
            library_write cwd filename
              (csv_encode (df_table dataframe) (csv_keywords params))).
Proof.
  unfold csv_keywords. split; [apply get_update_last|].
  split; [|reflexivity].
  cbn [Dict.update fold_left fst snd]. by apply get_set_ne.
Qed.

Lemma to_csv_float_format_witness :
  let params := [("float_format", VStr "%.3f"); ("index", VBool false)] in
  Dict.get "float_format" (csv_keywords params) = Some (VStr "%.11f")
  /\ Dict.get "index" (csv_keywords params) = Some (VBool false).
Proof.
  pose proof (to_csv_float_format (B := Rows.backend) []
                (Rows.named "capacity" Rows.capacity) (Path_of "out.csv")
                [("float_format", VStr "%.3f"); ("index", VBool false)]
                "index" ltac:(discriminate)) as (H1 & H2 & _).
  split; [exact H1 | exact H2].
Defined.

(** C6 as worded fails: a [float_format] in the configuration of the
    sink does not reach pandas; the file is written with [%.11f]. *)
Lemma to_csv_float_format_counterexample :
  let params := [("float_format", VStr "%.3f")] in
  let quantity := Rows.named "capacity" Rows.capacity in
  csv_keywords params = [("float_format", VStr "%.11f")]
  /\ csv_keywords params <> spec_csv_keywords params
  /\ factory (B := Rows.backend) 1 OUTPUT_SINKS
       [("sink", VStr "csv"); ("filename", VStr "out.csv");
        ("float_format", VStr "%.3f")] (VStr "power")
     = Some (Ok (Partial Wcsv
                   [("filename", VStr "out.csv");
                    ("float_format", VStr "%.3f");
                    ("sector", VStr "power")]))
  /\ call (B := Rows.backend) ["home"] "Results"
       (Partial Wcsv
          [("filename", VStr "out.csv"); ("float_format", VStr "%.3f");
           ("sector", VStr "power")]) quantity 2020 ∅
     = (Partial Wcsv
          [("filename", VStr "out.csv"); ("float_format", VStr "%.3f");
           ("sector", VStr "power")],
        (<[ ["home"; "out.csv"] :=
              File (Rows.Csv, Rows.capacity,
                    [("float_format", VStr "%.11f")]) ]>
           (<[ ["home"] := Directory ]> ∅),
         Ok (Path_of "out.csv"))).
Proof.
  repeat split; try reflexivity. intros H. discriminate H.
Qed.

(** ** The path of the output file *)

Lemma append_empty (s : string) : (s ++ "")%string = s.
Proof.
  induction s as [|c s IH]; [done|].
  change (String c (s ++ "") = String c s)%string. by rewrite IH.
Qed.




Lemma get_none_keys k d : Dict.get k d = None <-> ~ In k (Dict.keys d).
Proof.
  rewrite <- contains_keys. unfold Dict.contains.
  destruct (Dict.get k d); split; done.
Qed.




(** ** The yearly aggregate: construction *)



(** ** The yearly aggregate: calls *)

Section Aggregate.

Local Open Scope list_scope.

Context {B : Backend}.
Variable cwd : list string.
Variable DEFAULT_OUTPUT_DIRECTORY : string.

Lemma label_in_In a labels : label_in a labels = true <-> In a labels.
Proof.
  unfold label_in. rewrite existsb_exists. split.
  - intros (x & Hx & Heq). apply String.eqb_eq in Heq. by subst.
  - intros Hin. exists a. split; [done | apply String.eqb_refl].
Qed.

Lemma level_in_In level names : level_in level names = true <-> In level names.
Proof.
  unfold level_in. rewrite existsb_exists. split.
  - intros (x & Hx & Heq). destruct level as [l|], x as [n|]; try done.
    apply String.eqb_eq in Heq. by subst.
  - intros Hin. exists level. split; [done|].
    destruct level; [apply String.eqb_refl | done].
Qed.

Lemma accumulate_rename data aggregate dataframe :
  accumulate (option_map (rename_like data) aggregate) dataframe
  = accumulate aggregate dataframe.
Proof.
  destruct aggregate as [a|]; [|done]. cbn.
  unfold rename_like. by destruct (quantity_name data).
Qed.

Lemma concatenation_snoc (l : list DataFrame) (s : DataFrame) :
  concatenation (l ++ [s]) = Some (accumulate (concatenation l) s).
Proof.
  destruct l as [|first rest]; [done|].
  cbn [concatenation app accumulate]. by rewrite fold_left_app.
Qed.

Lemma slices_app axis (before calls : list (Quantity * Z)) :
  slices axis (before ++ calls) = slices axis before ++ slices axis calls.
Proof.
  induction before as [|[d y] before IH]; [done|].
  cbn [app slices]. destruct (year_slice axis d y); [|done].
  cbn [app]. by rewrite IH.
Qed.

Lemma slices_taken axis (calls : list (Quantity * Z))
  (taken : list DataFrame) :
  Forall2 (fun c s => year_slice axis (fst c) (snd c) = Ok s) calls taken ->
  slices axis calls = taken.
Proof.
  induction 1 as [|[d y] s calls taken Hs _ IH]; [done|].
  cbn [slices]. cbn [fst snd] in Hs. by rewrite Hs, IH.
Qed.

(** The slice of a call that takes one: the rows that line 247 selects
    when the axis is a column, the cross-section of line 249 when it
    is a level of the index. *)
Lemma year_slice_filtered axis data year slice dataframe a :
  year_slice axis data year = Ok slice ->
  as_dataframe data = Ok dataframe ->
  axis = VStr a ->
  (In a (columns (df_table dataframe)) ->
   df_table slice = select_eq a year (df_table dataframe))
  /\ (~ In a (columns (df_table dataframe)) ->
      In (Some a) (index_names (df_table dataframe)) ->
      xs year (Some a) (df_table dataframe) = Ok (df_table slice)).
Proof.
  intros Hslice Hframe ->. unfold year_slice in Hslice.
  rewrite Hframe in Hslice. cbn [rbind filter_year] in Hslice. split.
  - intros Hin. apply label_in_In in Hin. rewrite Hin in Hslice.
    by injection Hslice as <-.
  - intros Hnot Hin.
    destruct (label_in a (columns _)) eqn:Hc;
      [by apply label_in_In in Hc|].
    apply level_in_In in Hin. rewrite Hin in Hslice.
    unfold cross_section in Hslice.
    destruct (xs year (Some a) _) as [t|]; [|done].
    cbn [rbind] in Hslice. by injection Hslice as <-.
Qed.

(** A call whose conversion or filter raises: the exception is that of
    the call, which has assigned nothing and called nothing. *)
Lemma call_raises_early (sink : Sink) (aggregate : option DataFrame)
  (axis : pyval) (data : Quantity) (year : Z) (fs : FS) (e : exn) :
  year_slice axis data year = Err e ->
  call cwd DEFAULT_OUTPUT_DIRECTORY
    (YearlyAggregate sink aggregate axis) data year fs
  = (YearlyAggregate sink aggregate axis, (fs, Err e)).
Proof. intros Hslice. cbn [call]. by rewrite Hslice. Qed.

(** The container after one more call is what lines 250 to 256 make of
    the container before it. *)
Lemma container_snoc axis (before : list (Quantity * Z)) data year slice :
  year_slice axis data year = Ok slice ->
  container axis (before ++ [(data, year)])
  = Some (rename_like data (accumulate (container axis before) slice)).
Proof.
  intros Hslice. unfold container at 1. rewrite last_snoc, slices_app.
  cbn [slices]. rewrite Hslice, concatenation_snoc.
  cbn [option_map]. do 2 f_equal.
  unfold container. destruct (last before) as [[data' year']|] eqn:Hlast.
  - by rewrite accumulate_rename.
  - apply last_None in Hlast. by subst.
Qed.

Lemma run_aggregate_from (sink : Sink) (axis : pyval)
  (before calls : list (Quantity * Z)) (taken : list DataFrame) (fs : FS) :
  Forall2 (fun c s => year_slice axis (fst c) (snd c) = Ok s) calls taken ->
  run cwd DEFAULT_OUTPUT_DIRECTORY
    (YearlyAggregate sink (container axis before) axis) calls fs
  = let '(sink', fs', rs) :=
      run cwd DEFAULT_OUTPUT_DIRECTORY sink (delegated axis before calls) fs in
    (YearlyAggregate sink' (container axis (before ++ calls)) axis, fs', rs).
Proof.
  intros Htaken. revert sink before fs.
  induction Htaken as [|[data year] slice calls taken Hslice _ IH];
    intros sink before fs.
  - cbn. by rewrite app_nil_r.
  - cbn [fst snd] in Hslice. cbn [run delegated call]. rewrite Hslice.
    rewrite (container_snoc axis before data year slice Hslice).
    destruct (call cwd DEFAULT_OUTPUT_DIRECTORY sink _ year fs)
      as [sink1 [fs1 r]].
    rewrite <- (container_snoc axis before data year slice Hslice).
    rewrite IH. rewrite <- app_assoc. cbn [app].
    by destruct (run cwd DEFAULT_OUTPUT_DIRECTORY sink1 _ fs1) as [[? ?] ?].
Qed.

(** C1, as the code has it: for calls whose conversion to a frame and
    whose filter all return, leaving the slices [taken], a run of the
    calls on a fresh [YearlyAggregate] is a run of its inner sink on
    the whole container after each call, with the year of that call,
    and gives the outcomes of the inner sink in order; the aggregate
    is left holding the concatenation, in call order, of the slices,
    under the name of the last quantity.  After the first call the
    container is the slice of that call; each later call appends its
    slice to the container before it.  The slice of a call is the rows
    selected by the year in the column of the axis, or the
    cross-section for the year at the level of the axis.  A call whose
    conversion or filter raises raises that exception, with the
    container, the inner sink and the file system as they were. *)
Theorem YearlyAggregate_accumulates (sink : Sink) (axis : pyval)
  (calls : list (Quantity * Z)) (taken : list DataFrame) (fs : FS)
  (before : list (Quantity * Z)) (data : Quantity) (year : Z)
  (slice : DataFrame)
  (Htaken : Forall2 (fun c s => year_slice axis (fst c) (snd c) = Ok s)
              calls taken)
  (Hslice : year_slice axis data year = Ok slice) :
  run cwd DEFAULT_OUTPUT_DIRECTORY (YearlyAggregate sink None axis) calls fs
  = (let '(sink', fs', rs) :=
       run cwd DEFAULT_OUTPUT_DIRECTORY sink (delegated axis [] calls) fs in
     (YearlyAggregate sink' (container axis calls) axis, fs', rs))
  /\ container axis [(data, year)] = Some (rename_like data slice)
  /\ container axis ((before ++ [(data, year)]))
     = Some (rename_like data (accumulate (container axis before) slice))
  /\ option_map df_table (container axis calls)
     = option_map df_table (concatenation taken)
  /\ Forall2
       (fun c s =>
          forall dataframe a,
            as_dataframe (fst c) = Ok dataframe -> axis = VStr a ->
            (In a (columns (df_table dataframe)) ->
             df_table s = select_eq a (snd c) (df_table dataframe))
            /\ (~ In a (columns (df_table dataframe)) ->
                In (Some a) (index_names (df_table dataframe)) ->
                xs (snd c) (Some a) (df_table dataframe)
                = Ok (df_table s)))
       calls taken
  /\ (forall aggregate data0 year0 fs0 e,
        year_slice axis data0 year0 = Err e ->
        call cwd DEFAULT_OUTPUT_DIRECTORY
          (YearlyAggregate sink aggregate axis) data0 year0 fs0
        = (YearlyAggregate sink aggregate axis, (fs0, Err e))).
Proof.
  split; [|split; [|split; [|split; [|split]]]].
  - exact (run_aggregate_from sink axis [] calls taken fs Htaken).
  - exact (container_snoc axis [] data year slice Hslice).
  - by apply container_snoc.
  - unfold container. rewrite (slices_taken axis calls taken Htaken).
    destruct (last calls) as [[d y]|] eqn:Hlast.
    + destruct (concatenation taken) as [a|]; [|done].
      cbn. unfold rename_like. by destruct (quantity_name d).
    + apply last_None in Hlast. subst. by inversion Htaken.
  - eapply Forall2_impl; [exact Htaken|].
    intros [d y] s Hs dataframe a Hframe Haxis.
    by apply (year_slice_filtered axis d y).
  - intros aggregate data0 year0 fs0 e. apply call_raises_early.
Qed.

(** C9: when the inner sink raises on the container of a call, the call
    of the aggregate raises the same exception, and the aggregate holds
    that container, the slice of the call included. *)
Theorem YearlyAggregate_keeps_history (sink : Sink)
  (aggregate : option DataFrame) (axis : pyval) (data : Quantity) (year : Z)
  (fs : FS) (slice : DataFrame) (sink' : Sink) (fs' : FS) (e : exn)
  (Hslice : year_slice axis data year = Ok slice)
  (Hraise :
     call cwd DEFAULT_OUTPUT_DIRECTORY sink
       (QFrame (rename_like data (accumulate aggregate slice)))
       year fs = (sink', (fs', Err e))) :
  call cwd DEFAULT_OUTPUT_DIRECTORY
    (YearlyAggregate sink aggregate axis) data year fs
  = (YearlyAggregate sink'
       (Some (rename_like data (accumulate aggregate slice))) axis,
     (fs', Err e)).
Proof. cbn [call]. by rewrite Hslice, Hraise. Qed.


End Aggregate.

Lemma YearlyAggregate_accumulates_witness :
  let inner :=
    Partial (B := Rows.backend) Wcsv
      [("filename", VStr "all.csv"); ("overwrite", VBool true)] in
  let data := Rows.named "capacity" Rows.capacity in
  let first := Rows.select "year" 2020 Rows.capacity in
  let second := Rows.select "year" 2025 Rows.capacity in
  run ["home"] "Results" (YearlyAggregate inner None (VStr "year"))
    [(data, 2020); (data, 2025)] ∅
  = (let '(sink', fs', rs) :=
       run ["home"] "Results" inner
         [(QFrame (Rows.data_frame (Some "capacity") first), 2020);
          (QFrame (Rows.data_frame (Some "capacity")
                     (Rows.append first second)), 2025)] ∅ in
     (YearlyAggregate sink'
        (Some (Rows.data_frame (Some "capacity") (Rows.append first second)))
        (VStr "year"), fs', rs)).
Proof.
  intros inner data first second.
  exact (proj1 (YearlyAggregate_accumulates (B := Rows.backend)
                  ["home"] "Results" inner (VStr "year")
                  [(data, 2020); (data, 2025)]
                  [Rows.data_frame None first; Rows.data_frame None second]
                  ∅ [] data 2020 (Rows.data_frame None first)
                  ltac:(repeat constructor)
                  eq_refl)).
Defined.

(** C1 as worded fails: not every call reaches the inner sink.  With
    the year as a level of the index, a call for a year that the data
    does not have raises the [KeyError] of the cross-section: the
    container stays as the first call left it, the inner sink is not
    called and the file keeps the rows of the first call. *)
Lemma YearlyAggregate_accumulates_counterexample :
  let inner :=
    Partial (B := Rows.backend) Wcsv
      [("filename", VStr "all.csv"); ("overwrite", VBool true)] in
  let data := Rows.named "capacity" Rows.capacity_by_year in
  let first :=
    Rows.data_frame (Some "capacity")
      (Rows.mkFrame ["asset"] ["capacity"]
         [ [("asset", 1); ("capacity", 10)] ]) in
  year_slice (VStr "year") data 2030 = Err (KeyError "2030")
  /\ run ["home"] "Results" (YearlyAggregate inner None (VStr "year"))
       [(data, 2020); (data, 2030)] ∅
     = (YearlyAggregate inner (Some first) (VStr "year"),
        <[ ["home"; "all.csv"] :=
             File (Rows.Csv, df_table first,
                   [("float_format", VStr "%.11f")]) ]>
          (<[ ["home"] := Directory ]> ∅),
        [Ok (Path_of "all.csv"); Err (KeyError "2030")]).
Proof. split; reflexivity. Qed.

Lemma YearlyAggregate_keeps_history_witness :
  let inner :=
    Partial (B := Rows.backend) Wcsv
      [("overwrite", VBool false); ("filename", VStr "out/all.csv");
       ("sector", VStr "power")] in
  let written : FS :=
    {[ ["home"; "out"; "all.csv"] := File (Rows.Csv, Rows.prices, []) ]} in
  let first := Rows.data_frame (Some "capacity")
                 (Rows.select "year" 2020 Rows.capacity) in
  call ["home"] "Results" (YearlyAggregate inner (Some first) (VStr "year"))
    (Rows.named "capacity" Rows.capacity) 2025 written
  = (YearlyAggregate inner
       (Some (Rows.data_frame (Some "capacity")
                (Rows.append (Rows.select "year" 2020 Rows.capacity)
                             (Rows.select "year" 2025 Rows.capacity))))
       (VStr "year"),
     (written, Err (already_exists (Path_of "out/all.csv")))).
Proof.
  intros inner written first.
  exact (YearlyAggregate_keeps_history (B := Rows.backend) ["home"] "Results"
           inner (Some first) (VStr "year")
           (Rows.named "capacity" Rows.capacity) 2025 written
           (Rows.data_frame None (Rows.select "year" 2025 Rows.capacity))
           inner written (already_exists (Path_of "out/all.csv"))
           eq_refl eq_refl).
Defined.



(** ** Aggregates at any depth *)

Section Nesting.

Context {B : Backend}.
Variables (name registered : string) (w : writer).
Hypothesis Hstrip : strip_dot (VStr name) = Ok registered.
Hypothesis Hwriter : lookup_sink OUTPUT_SINKS registered = Ok (Function w).

Lemma factory_step fuel registry parameters sector_name :
  factory (S fuel) registry parameters sector_name
  = match configure registry parameters sector_name with
    | Err e => Some (Err e)
    | Ok (Function w, params) => Some (Ok (Partial w params))
    | Ok (Class_YearlyAggregate, params) =>
        YearlyAggregate_init (factory fuel registry) params
    end.
Proof. reflexivity. Qed.

Lemma wrapped_overwrite depth :
  Dict.update (wrapped depth name) [("overwrite", VBool true)]
  = (wrapped depth name ++ [("overwrite", VBool true)])%list
  /\ Dict.contains "overwrite" (wrapped depth name) = false
  /\ Dict.contains "overwrite"
       (wrapped depth name ++ [("overwrite", VBool true)])%list = true.
Proof. destruct depth; repeat split; reflexivity. Qed.

Lemma to_lower_idempotent c : to_lower (to_lower c) = to_lower c.
Proof. destruct c as [[] [] [] [] [] [] [] []]; reflexivity. Qed.

Lemma lower_idempotent s : lower (lower s) = lower s.
Proof.
  induction s as [|c s IH]; [done|].
  cbn [lower]. by rewrite to_lower_idempotent, IH.
Qed.

Lemma configure_below depth sector :
  configure OUTPUT_SINKS
    [("sink", VDict (wrapped (S depth) name ++ [("overwrite", VBool true)]))]
    (VStr sector)
  = Ok (Class_YearlyAggregate,
        [("final_sink", VDict [("sink", VDict (wrapped depth name))]);
         ("overwrite", VBool true); ("sector", VStr (lower sector))]).
Proof. reflexivity. Qed.

Lemma init_below fuel depth sector :
  YearlyAggregate_init (factory fuel OUTPUT_SINKS)
    [("final_sink", VDict [("sink", VDict (wrapped depth name))]);
     ("overwrite", VBool true); ("sector", VStr sector)]
  = match
      factory fuel OUTPUT_SINKS
        [("sink", VDict (wrapped depth name ++ [("overwrite", VBool true)]))]
        (VStr sector)
    with
    | None => None
    | Some (Err e) => Some (Err e)
    | Some (Ok sink) => Some (Ok (YearlyAggregate sink None (VStr "year")))
    end.
Proof.
  unfold YearlyAggregate_init, inner_configuration.
  change (merge_kwargs _ _)
    with (Ok (A := dict)
            [("sink",
              VDict (Dict.update (wrapped depth name)
                       [("overwrite", VBool true)]))]).
  destruct (wrapped_overwrite depth) as (-> & _ & Hhas).
  cbn [rbind]. unfold default_overwrite, has_overwrite.
  change (Dict.get "sink" [("sink", ?v)]) with (Some v).
  cbv beta iota. rewrite Hhas. rewrite orb_true_r. cbn [negb].
  reflexivity.
Qed.

Lemma factory_below depth sector :
  factory (S depth) OUTPUT_SINKS
    [("sink", VDict (wrapped depth name ++ [("overwrite", VBool true)]))]
    (VStr sector)
  = Some (Ok (aggregates depth
                (Partial w [("overwrite", VBool true);
                            ("sector", VStr (lower sector))]))).
Proof.
  revert sector. induction depth as [|depth IH]; intros sector.
  - rewrite factory_step. unfold configure.
    cbn -[strip_dot lookup_sink lower].
    rewrite Hstrip. cbn -[lookup_sink lower]. by rewrite Hwriter.
  - rewrite factory_step, configure_below, init_below, IH, lower_idempotent.
    reflexivity.
Qed.

Lemma configure_level depth sector :
  configure OUTPUT_SINKS
    [("sink", VDict (wrapped (S depth) name)); ("overwrite", VBool true)]
    (VStr sector)
  = Ok (Class_YearlyAggregate,
        [("final_sink", VDict [("sink", VDict (wrapped depth name))]);
         ("overwrite", VBool true); ("sector", VStr (lower sector))]).
Proof. reflexivity. Qed.

Lemma factory_level depth sector :
  factory (S depth) OUTPUT_SINKS
    [("sink", VDict (wrapped depth name)); ("overwrite", VBool true)]
    (VStr sector)
  = Some (Ok (aggregates depth
                (Partial w [("overwrite", VBool true);
                            ("sector", VStr (lower sector))]))).
Proof.
  destruct depth as [|depth].
  - rewrite factory_step. unfold configure.
    cbn -[strip_dot lookup_sink lower].
    rewrite Hstrip. cbn -[lookup_sink lower]. by rewrite Hwriter.
  - rewrite factory_step, configure_level, init_below, factory_below,
      lower_idempotent.
    reflexivity.
Qed.

Lemma configure_nested depth sector :
  configure OUTPUT_SINKS [("sink", nested (S depth) name)] (VStr sector)
  = Ok (Class_YearlyAggregate,
        [("final_sink", VDict [("sink", VDict (wrapped depth name))]);
         ("sector", VStr (lower sector))]).
Proof.
  unfold configure, Dict.pop_default.
  change (Dict.get_default "sink" VNone _) with (nested (S depth) name).
  change (Dict.remove "sink" _) with ([] : dict).
  change (Dict.get_default "filename" VNone []) with VNone.
  rewrite normalize_nested. reflexivity.
Qed.

Lemma init_nested fuel depth sector :
  YearlyAggregate_init (factory fuel OUTPUT_SINKS)
    [("final_sink", VDict [("sink", VDict (wrapped depth name))]);
     ("sector", VStr sector)]
  = match
      factory fuel OUTPUT_SINKS
        [("sink", VDict (wrapped depth name)); ("overwrite", VBool true)]
        (VStr sector)
    with
    | None => None
    | Some (Err e) => Some (Err e)
    | Some (Ok sink) => Some (Ok (YearlyAggregate sink None (VStr "year")))
    end.
Proof.
  unfold YearlyAggregate_init, inner_configuration.
  change (merge_kwargs _ _)
    with (Ok (A := dict) [("sink", VDict (wrapped depth name))]).
  destruct (wrapped_overwrite depth) as (_ & Hnone & _).
  cbn [rbind]. unfold default_overwrite, has_overwrite.
  change (Dict.get "sink" [("sink", ?v)]) with (Some v).
  cbv beta iota. rewrite Hnone. reflexivity.
Qed.

(** With one unit of fuel for the sink and one for each aggregate
    around it, [factory] returns the sink: the writer of the name under
    as many aggregates as the configuration nests, the writer set to
    overwrite when it is under an aggregate. *)
Lemma factory_nested depth sector :
  factory (S depth) OUTPUT_SINKS [("sink", nested depth name)] (VStr sector)
  = Some (Ok (aggregates depth
                (Partial w
                   match depth with
                   | O => [("sector", VStr (lower sector))]
                   | S _ => [("overwrite", VBool true);
                             ("sector", VStr (lower sector))]
                   end))).
Proof.
  destruct depth as [|depth].
  - rewrite factory_step. unfold configure.
    cbn -[strip_dot lookup_sink lower].
    rewrite Hstrip. cbn -[lookup_sink lower]. by rewrite Hwriter.
  - rewrite factory_step, configure_nested, init_nested, factory_level,
      lower_idempotent.
    reflexivity.
Qed.

End Nesting.

(** The aggregate over the NetCDF writer, nested three times. *)
Example factory_nested_netcdf `{B : Backend} :
  factory 4 OUTPUT_SINKS [("sink", nested 3 "nc")] (VStr "Power")
  = Some (Ok (aggregates 3
                (Partial Wnetcdf [("overwrite", VBool true);
                                  ("sector", VStr "power")]))).
Proof. exact (factory_nested "nc" "nc" Wnetcdf eq_refl eq_refl 3 "Power"). Qed.

(** ** Examples *)

Example path_suffix_template :
  path_suffix (Path_of "out/{year}.csv") = ".csv"
  /\ path_suffix (Path_of "out/.hidden") = ""
  /\ path_suffix (Path_of "archive.tar.gz") = ".gz"
  /\ path_suffix (Path_of "out/") = "".
Proof. repeat split; reflexivity. Qed.

Example title_words :
  title "power sector" = "Power Sector" /\ title "fuel_COSTS" = "Fuel_Costs".
Proof. split; reflexivity. Qed.

Example format_escapes :
  format "{{{year}}}" [("year", VInt 2020)] = Ok "{2020}"
  /\ format "{}" [("year", VInt 2020)] = Err IndexError
  /\ format "{year" [("year", VInt 2020)]
     = Err (ValueError "expected '}' before end of string").
Proof. repeat split; reflexivity. Qed.

(** A sink mapping without a [name] stops at line 66, before the test
    for duplicate settings. *)
Example factory_sink_without_name `{B : Backend} :
  factory 1 OUTPUT_SINKS
    [("sink", VDict [("overwrite", VBool true)]); ("overwrite", VBool false)]
    (VStr "power")
  = Some (Err (KeyError "name")).
Proof. reflexivity. Qed.

Example factory_unknown_sink `{B : Backend} :
  factory 1 OUTPUT_SINKS [("sink", VStr "hdf5")] (VStr "power")
  = Some (Err (KeyError "hdf5")).
Proof. reflexivity. Qed.

(** Without a [sink], the suffix of the filename names the sink, the
    leading dot dropped at line 73. *)
Example factory_from_filename `{B : Backend} :
  factory 1 OUTPUT_SINKS [("filename", VStr "{cwd}/prices.xlsx")] (VStr "Gas")
  = Some (Ok (Partial Wexcel [("filename", VStr "{cwd}/prices.xlsx");
                              ("sector", VStr "gas")]))
  /\ factory 1 OUTPUT_SINKS [("quantity", VStr "prices")] (VStr "Gas")
     = Some (Ok (Partial Wcsv [("sector", VStr "gas")])).
Proof. split; reflexivity. Qed.

(** The overwrite of an aggregate set next to it goes to the inner
    sink untouched, which then refuses the second year. *)
Example aggregate_without_overwrite :
  let sink :=
    YearlyAggregate (B := Rows.backend)
      (Partial Wcsv [("overwrite", VBool false);
                     ("filename", VStr "all.csv"); ("sector", VStr "power")])
      None (VStr "year") in
  let data := Rows.named "capacity" Rows.capacity in
  factory 2 OUTPUT_SINKS
    [("sink", VDict [("aggregate", VStr "csv"); ("overwrite", VBool false)]);
     ("filename", VStr "all.csv")] (VStr "power")
  = Some (Ok sink)
  /\ snd (run ["home"] "Results" sink [(data, 2020); (data, 2025)] ∅)
     = [Ok (Path_of "all.csv"); Err (already_exists (Path_of "all.csv"))].
Proof. split; reflexivity. Qed.

(** Two years through an aggregate over the CSV writer: the file holds
    the rows of both years, those of 2020 first. *)
Example aggregate_two_years :
  let sink :=
    YearlyAggregate (B := Rows.backend)
      (Partial Wcsv [("filename", VStr "all.csv"); ("overwrite", VBool true)])
      None (VStr "year") in
  let data := Rows.named "capacity" Rows.capacity in
  let both :=
    Rows.mkFrame ["asset"] ["year"; "capacity"]
      [ [("asset", 1); ("year", 2020); ("capacity", 10)];
        [("asset", 2); ("year", 2020); ("capacity", 20)];
        [("asset", 1); ("year", 2025); ("capacity", 15)] ] in
  let '(sink', fs, outcomes) :=
    run ["home"] "Results" sink [(data, 2020); (data, 2025)] ∅ in
  sink' = YearlyAggregate
            (Partial Wcsv [("filename", VStr "all.csv");
                           ("overwrite", VBool true)])
            (Some (Rows.data_frame (Some "capacity") both)) (VStr "year")
  /\ fs !! ["home"; "all.csv"]
     = Some (File (Rows.Csv, both, [("float_format", VStr "%.11f")]))
  /\ outcomes = [Ok (Path_of "all.csv"); Ok (Path_of "all.csv")].
Proof. vm_compute. repeat split; reflexivity. Qed.

(** With the year as a level of the index, the cross-section drops
    that level. *)
Example aggregate_by_index_level :
  year_slice (B := Rows.backend) (VStr "year")
    (Rows.named "capacity" Rows.capacity_by_year) 2025
  = Ok (Rows.data_frame None
          (Rows.mkFrame ["asset"] ["capacity"]
             [ [("asset", 1); ("capacity", 15)] ])).
Proof. reflexivity. Qed.

(** * Further properties *)

(** ** Dictionaries with distinct keys *)

Lemma keys_remove k k' d :
  In k' (Dict.keys (Dict.remove k d)) <-> k' <> k /\ In k' (Dict.keys d).
Proof.
  unfold Dict.keys, Dict.remove. induction d as [|[k0 v0] d IH]; simpl.
  - tauto.
  - destruct (String.eqb k k0) eqn:E; simpl.
    + apply String.eqb_eq in E as <-. rewrite IH. split; [tauto|].
      intros [Hne [->|Hin]]; [done | tauto].
    + apply String.eqb_neq in E. rewrite IH. split.
      * intros [->|[? ?]]; [split; [congruence | by left] | tauto].
      * tauto.
Qed.

Lemma NoDup_remove k d :
  NoDup (Dict.keys d) -> NoDup (Dict.keys (Dict.remove k d)).
Proof.
  unfold Dict.keys, Dict.remove. induction d as [|[k0 v0] d IH]; simpl.
  - done.
  - intros Hnd. apply NoDup_cons in Hnd as [Hnotin Hnd].
    destruct (String.eqb k k0); simpl; [by apply IH|].
    apply NoDup_cons. split; [|by apply IH].
    intros Hin. apply Hnotin. apply list_elem_of_In in Hin.
    apply list_elem_of_In. by apply (keys_remove k k0 d).
Qed.

Lemma remove_absent k d : Dict.get k d = None -> Dict.remove k d = d.
Proof.
  induction d as [|[k0 v0] d IH]; simpl; [done|].
  destruct (String.eqb k k0); [done|]. intros H. by rewrite IH.
Qed.

Lemma set_absent k v d :
  Dict.get k d = None -> Dict.set k v d = (d ++ [(k, v)])%list.
Proof.
  induction d as [|[k0 v0] d IH]; simpl; [done|].
  destruct (String.eqb k k0); [done|]. intros H. by rewrite IH.
Qed.

Lemma get_app k (d c : dict) :
  Dict.get k (d ++ c)%list
  = match Dict.get k d with Some v => Some v | None => Dict.get k c end.
Proof.
  induction d as [|[k0 v0] d IH]; simpl; [done|].
  by destruct (String.eqb k k0).
Qed.

(** [d.update(c)] for a [c] of distinct keys: the value of [c] where it
    has the key, that of [d] elsewhere. *)
Lemma get_update k (d c : dict) :
  NoDup (Dict.keys c) ->
  Dict.get k (Dict.update d c)
  = match Dict.get k c with Some v => Some v | None => Dict.get k d end.
Proof.
  unfold Dict.update. revert d.
  induction c as [|[k0 v0] c IH]; intros d Hnd; [done|].
  cbn in Hnd. apply NoDup_cons in Hnd as [Hnotin Hnd].
  cbn [fold_left fst snd]. rewrite IH by done. cbn [Dict.get].
  destruct (String.eqb k k0) eqn:E.
  - apply String.eqb_eq in E as ->.
    assert (Dict.get k0 c = None) as ->.
    { apply get_none_keys. intros Hin. apply Hnotin.
      by apply list_elem_of_In. }
    apply get_set_eq.
  - apply String.eqb_neq in E. by rewrite get_set_ne.
Qed.


(** ** More on the normalisation of the sink entry *)

Lemma pyval_nested_ind (P : pyval -> Prop) :
  P VNone -> (forall b, P (VBool b)) -> (forall z, P (VInt z)) ->
  (forall s, P (VStr s)) ->
  (forall d, Forall (fun kv => P (snd kv)) d -> P (VDict d)) ->
  forall v, P v.
Proof.
  intros HNone HBool HInt HStr HDict.
  fix IH 1. intros [| b | z | s | d]; [done..|].
  apply HDict. induction d as [|[k v] d IHd]; constructor; [apply IH | done].
Qed.

Lemma get_In k v (d : dict) : Dict.get k d = Some v -> In (k, v) d.
Proof.
  induction d as [|[k0 v0] d IH]; simpl; [done|].
  destruct (String.eqb k k0) eqn:E.
  - apply String.eqb_eq in E as ->. intros [= ->]. by left.
  - intros H. right. by apply IH.
Qed.

Lemma filename_suffix_raises filename e :
  filename_suffix filename = Err e ->
  e = TypeError /\ truthy filename = true /\ forall f, filename <> VStr f.
Proof.
  unfold filename_suffix. destruct (truthy filename) eqn:Htruthy; [|done].
  destruct filename; try done; intros [= <-]; repeat split; done.
Qed.

Lemma inferred_name_raises config filename e :
  inferred_name config filename = Err e -> filename_suffix filename = Err e.
Proof.
  unfold inferred_name.
  destruct (filename_suffix filename); cbn [rbind];
    [discriminate | by intros [= ->]].
Qed.

Lemma wrap_aggregate_raises d inner e :
  wrap_aggregate d inner = Err e -> inner = Err e.
Proof. unfold wrap_aggregate. by destruct inner. Qed.

(** X1: [normalize] raises nothing but the [TypeError] of
    [Path(filename)], and that only for a filename that is true and not
    a string; with no filename or a string for one it returns for every
    sink entry, however deep the aggregates in it. *)
Theorem normalize_raises config params filename e
  (Hraise : normalize config params filename = Err e) :
  e = TypeError /\ truthy filename = true /\ forall f, filename <> VStr f.
Proof.
  apply filename_suffix_raises. revert e Hraise.
  induction params as [| b | z | s | d IH] using pyval_nested_ind;
    intros e Hraise; try (by apply (inferred_name_raises config)).
  rewrite normalize_mapping in Hraise.
  destruct (Dict.get "aggregate" d) as [inner|] eqn:Hagg; [|done].
  apply wrap_aggregate_raises in Hraise.
  apply get_In in Hagg. rewrite Forall_forall in IH.
  apply (IH ("aggregate", inner)); [by apply list_elem_of_In | done].
Qed.

Lemma normalize_raises_witness :
  normalize [] (VDict [("aggregate", VDict [("aggregate", VNone)])]) (VInt 5)
  = Err TypeError
  /\ truthy (VInt 5) = true.
Proof.
  split; [reflexivity|].
  exact (proj1 (proj2 (normalize_raises []
           (VDict [("aggregate", VDict [("aggregate", VNone)])]) (VInt 5)
           TypeError eq_refl))).
Defined.

Lemma normalize_no_aggregate config params filename r :
  normalize config params filename = Ok r -> Dict.get "aggregate" r = None.
Proof.
  destruct params as [| b | z | s | d].
  1-3: cbn [normalize]; unfold inferred_name;
    destruct (filename_suffix filename); [|done]; by intros [= <-].
  - by intros [= <-].
  - rewrite normalize_mapping.
    destruct (Dict.get "aggregate" d) as [inner|] eqn:Hagg;
      [|by intros [= <-]].
    unfold wrap_aggregate.
    destruct (normalize config inner filename); [|done].
    intros [= <-]. rewrite get_set_ne by done. apply get_remove_eq.
Qed.

(** X2: a normalised sink entry normalises to itself.  The constructor
    of the aggregate relies on it: the [final_sink] it hands to
    [factory] holds an entry that [normalize] wrote. *)
Theorem normalize_idempotent config params filename r
  (Hnorm : normalize config params filename = Ok r) :
  normalize config (VDict r) filename = Ok r.
Proof.
  rewrite normalize_mapping.
  by rewrite (normalize_no_aggregate _ _ _ _ Hnorm).
Qed.

Lemma normalize_idempotent_witness :
  let r := [("overwrite", VBool false); ("name", VStr "aggregate");
            ("final_sink", VDict [("sink", VDict [("name", VStr "nc")])])] in
  normalize [] (VDict [("aggregate", VStr "nc"); ("overwrite", VBool false)])
    VNone = Ok r
  /\ normalize [] (VDict r) VNone = Ok r.
Proof.
  split; [reflexivity|].
  exact (normalize_idempotent []
           (VDict [("aggregate", VStr "nc"); ("overwrite", VBool false)])
           VNone _ eq_refl).
Defined.

(** X3: normalisation keeps the options of a sink mapping: every key
    but [name], [aggregate] and [final_sink] has in the result the
    value it has in the mapping, with or without an aggregate. *)
Theorem normalize_keeps_options config d filename r k
  (Hnorm : normalize config (VDict d) filename = Ok r)
  (Hname : k <> "name") (Hagg : k <> "aggregate")
  (Hfinal : k <> "final_sink") :
  Dict.get k r = Dict.get k d.
Proof.
  rewrite normalize_mapping in Hnorm.
  destruct (Dict.get "aggregate" d) as [inner|]; [|by injection Hnorm as <-].
  unfold wrap_aggregate in Hnorm.
  destruct (normalize config inner filename); [|done].
  injection Hnorm as <-.
  by rewrite get_set_ne, get_remove_ne, get_set_ne.
Qed.

Lemma normalize_keeps_options_witness :
  exists r,
    normalize [] (VDict [("aggregate", VStr "csv"); ("index", VBool false)])
      VNone = Ok r
    /\ Dict.get "index" r = Some (VBool false).
Proof.
  eexists. split; [reflexivity|].
  exact (normalize_keeps_options []
           [("aggregate", VStr "csv"); ("index", VBool false)] VNone _
           "index" eq_refl ltac:(discriminate) ltac:(discriminate)
           ltac:(discriminate)).
Defined.

(** ** More on the factory *)

(** What a successful run of lines 43 to 74 went through. *)
Lemma configure_inv registry parameters sector_name impl kw :
  configure registry parameters sector_name = Ok (impl, kw) ->
  let config := Dict.remove "sink" (Dict.remove "quantity" parameters) in
  exists params sink_name rest sector registered,
    normalize config
      (Dict.get_default "sink" VNone (Dict.remove "quantity" parameters))
      (Dict.get_default "filename" VNone config) = Ok params
    /\ Dict.pop "name" params = Ok (sink_name, rest)
    /\ Dict.intersection rest config = []
    /\ lower_text sector_name = Ok sector
    /\ strip_dot sink_name = Ok registered
    /\ lookup_sink registry registered = Ok impl
    /\ kw = Dict.set "sector" (VStr sector) (Dict.update rest config).
Proof.
  unfold configure, Dict.pop_default. cbv zeta.
  destruct (normalize _ _ _) as [params|] eqn:Hnorm; [|done]. cbn [rbind].
  destruct (Dict.pop "name" params) as [[sink_name rest]|] eqn:Hpop; [|done].
  cbn [rbind].
  destruct (Dict.intersection rest _) as [|k ks] eqn:Hint; [|done].
  cbn [length Nat.eqb negb].
  destruct (lower_text sector_name) as [sector|] eqn:Hsector; [|done].
  cbn [rbind].
  destruct (strip_dot sink_name) as [registered|] eqn:Hstrip; [|done].
  cbn [rbind].
  destruct (lookup_sink registry registered) as [impl'|] eqn:Hlook; [|done].
  cbn [rbind]. intros [= <- <-].
  by exists params, sink_name, rest, sector, registered.
Qed.

Lemma pop_name_get k params sink_name rest :
  Dict.pop "name" params = Ok (sink_name, rest) ->
  Dict.get k rest = if String.eqb k "name" then None else Dict.get k params.
Proof.
  unfold Dict.pop. destruct (Dict.get "name" params); [|done].
  intros [= _ <-]. destruct (String.eqb k "name") eqn:E.
  - apply String.eqb_eq in E as ->. apply get_remove_eq.
  - apply String.eqb_neq in E. by apply get_remove_ne.
Qed.

(** X4: the keyword arguments that [factory] binds to an implementation
    hold, for a configuration of distinct keys: under [sector] the
    sector name in lower case, whatever the configuration has there;
    under every other key the value of the outer configuration, taken
    without its [quantity] and [sink], if it has the key, else that of
    the normalised sink mapping, taken without its [name]. *)
Theorem configure_keywords registry parameters sector impl kw k
  (Hdistinct : NoDup (Dict.keys parameters))
  (Hconf : configure registry parameters (VStr sector) = Ok (impl, kw)) :
  let outer := Dict.remove "sink" (Dict.remove "quantity" parameters) in
  exists params,
    normalize outer
      (Dict.get_default "sink" VNone (Dict.remove "quantity" parameters))
      (Dict.get_default "filename" VNone outer)
    = Ok params
    /\ Dict.get k kw
       = if String.eqb k "sector" then Some (VStr (lower sector))
         else match Dict.get k outer with
              | Some v => Some v
              | None =>
                  if String.eqb k "name" then None else Dict.get k params
              end.
Proof.
  intros outer. apply configure_inv in Hconf.
  destruct Hconf
    as (params & sink_name & rest & sec & registered
        & Hnorm & Hpop & _ & Hsec & _ & _ & ->).
  injection Hsec as <-. exists params. split; [done|].
  destruct (String.eqb k "sector") eqn:Esector.
  { apply String.eqb_eq in Esector as ->. apply get_set_eq. }
  apply String.eqb_neq in Esector. rewrite get_set_ne by done.
  rewrite get_update by by do 2 apply NoDup_remove.
  by rewrite (pop_name_get k _ _ _ Hpop).
Qed.

Lemma configure_keywords_witness :
  exists kw,
    configure OUTPUT_SINKS
      [("quantity", VStr "capacity"); ("sector", VStr "ignored");
       ("sink", VDict [("name", VStr "csv"); ("index", VBool false)]);
       ("filename", VStr "out.csv")] (VStr "Power")
    = Ok (Function Wcsv, kw)
    /\ Dict.get "sector" kw = Some (VStr "power")
    /\ Dict.get "quantity" kw = None
    /\ Dict.get "index" kw = Some (VBool false).
Proof.
  eexists. split; [reflexivity|].
  assert (NoDup (Dict.keys
            [("quantity", VStr "capacity"); ("sector", VStr "ignored");
             ("sink", VDict [("name", VStr "csv"); ("index", VBool false)]);
             ("filename", VStr "out.csv")])) as Hdistinct.
  { apply (bool_decide_unpack _). vm_compute. exact I. }
  split; [|split].
  - destruct (configure_keywords OUTPUT_SINKS _ "Power" _ _ "sector"
                Hdistinct eq_refl) as (params & _ & H).
    exact H.
  - destruct (configure_keywords OUTPUT_SINKS _ "Power" _ _ "quantity"
                Hdistinct eq_refl) as (params & Hnorm & H).
    injection Hnorm as <-. exact H.
  - destruct (configure_keywords OUTPUT_SINKS _ "Power" _ _ "index"
                Hdistinct eq_refl) as (params & Hnorm & H).
    injection Hnorm as <-. exact H.
Defined.

Lemma factory_configure `{B : Backend} fuel registry p p' s s' :
  configure registry p s = configure registry p' s' ->
  factory fuel registry p s = factory fuel registry p' s'.
Proof.
  destruct fuel as [|fuel]; [done|]. intros H.
  by rewrite !factory_step, H.
Qed.




(** X6: without a [sink] and without a [suffix], a configuration with a
    filename builds what it builds with the suffix of the filename as
    its sink, [csv] standing in for an empty suffix. *)
Theorem factory_infers_sink `{B : Backend} fuel registry (c : dict) f
  sector_name
  (Hsink : Dict.get "sink" c = None)
  (Hsuffix : Dict.get "suffix" c = None)
  (Hfilename : Dict.get "filename" c = Some (VStr f)) :
  let suffix := path_suffix (Path_of f) in
  factory fuel registry c sector_name
  = factory fuel registry
      (("sink", VStr (if String.eqb suffix "" then "csv" else suffix)) :: c)
      sector_name.
Proof.
  intros suffix. apply factory_configure.
  unfold configure, Dict.pop_default.
  change (Dict.remove "quantity" (("sink", ?v) :: c))
    with (("sink", v) :: Dict.remove "quantity" c).
  change (Dict.get_default "sink" VNone (("sink", ?v) :: ?d)) with v.
  change (Dict.remove "sink" (("sink", ?v) :: ?d)) with (Dict.remove "sink" d).
  assert (Dict.get "sink" (Dict.remove "quantity" c) = None) as Hsink'
    by by rewrite get_remove_ne.
  rewrite (remove_absent "sink") by done.
  unfold Dict.get_default at 1. rewrite Hsink'.
  unfold Dict.get_default. rewrite get_remove_ne, Hfilename by done.
  cbn [normalize]. unfold inferred_name, Dict.get_default.
  rewrite get_remove_ne, Hsuffix by done.
  rewrite filename_suffix_text. cbn [rbind truthy]. fold suffix.
  destruct (String.eqb f "") eqn:Ef.
  - apply String.eqb_eq in Ef. subst f. reflexivity.
  - destruct (String.eqb suffix ""); reflexivity.
Qed.

Lemma factory_infers_sink_witness :
  factory (B := Rows.backend) 1 OUTPUT_SINKS
    [("filename", VStr "out/{year}.xlsx")] (VStr "gas")
  = factory 1 OUTPUT_SINKS
      [("sink", VStr ".xlsx"); ("filename", VStr "out/{year}.xlsx")]
      (VStr "gas").
Proof.
  exact (factory_infers_sink (B := Rows.backend) 1 OUTPUT_SINKS
           [("filename", VStr "out/{year}.xlsx")] "out/{year}.xlsx"
           (VStr "gas") eq_refl eq_refl eq_refl).
Defined.

(** X7: the same key at the top level and in the mapping of a sink is
    the duplicate-settings error; with the mapping under [aggregate] it
    is none: the constructor of the aggregate writes the top-level
    value over the one in the mapping, and the inner sink gets the
    top-level [overwrite]. *)
Theorem aggregate_overrides_nested `{B : Backend} fuel name registered w
  sector (inner outer : pyval)
  (Hstrip : strip_dot (VStr name) = Ok registered)
  (Hwriter : lookup_sink OUTPUT_SINKS registered = Ok (Function w)) :
  factory (S fuel) OUTPUT_SINKS
    [("sink", VDict [("name", VStr name); ("overwrite", inner)]);
     ("overwrite", outer)] (VStr sector)
  = Some (Err duplicate_settings)
  /\ factory (S (S fuel)) OUTPUT_SINKS
       [("sink", VDict [("aggregate",
                         VDict [("name", VStr name); ("overwrite", inner)])]);
        ("overwrite", outer)] (VStr sector)
     = Some (Ok (YearlyAggregate
                   (Partial w [("overwrite", outer);
                               ("sector", VStr (lower sector))])
                   None (VStr "year"))).
Proof.
  split; [reflexivity|].
  rewrite factory_step.
  change (configure OUTPUT_SINKS _ (VStr sector))
    with (Ok (Class_YearlyAggregate,
              [("final_sink",
                VDict [("sink", VDict [("name", VStr name);
                                       ("overwrite", inner)])]);
               ("overwrite", outer); ("sector", VStr (lower sector))])).
  cbv beta iota.
  change (YearlyAggregate_init (factory (S fuel) OUTPUT_SINKS) _)
    with (match
            factory (S fuel) OUTPUT_SINKS
              [("sink", VDict [("name", VStr name); ("overwrite", outer)])]
              (VStr (lower sector))
          with
          | None => None
          | Some (Err e) => Some (Err e)
          | Some (Ok sink) =>
              Some (Ok (YearlyAggregate sink None (VStr "year")))
          end).
  rewrite factory_step. unfold configure.
  cbn -[strip_dot lookup_sink lower].
  rewrite Hstrip. cbn -[lookup_sink lower]. rewrite Hwriter.
  cbn -[lower]. by rewrite lower_idempotent.
Qed.

Lemma aggregate_overrides_nested_witness :
  factory (B := Rows.backend) 2 OUTPUT_SINKS
    [("sink", VDict [("aggregate",
                      VDict [("name", VStr "csv");
                             ("overwrite", VBool false)])]);
     ("overwrite", VBool true)] (VStr "power")
  = Some (Ok (YearlyAggregate
                (Partial Wcsv [("overwrite", VBool true);
                               ("sector", VStr "power")])
                None (VStr "year"))).
Proof.
  exact (proj2 (aggregate_overrides_nested (B := Rows.backend) 0
                  "csv" "csv" Wcsv "power" (VBool false) (VBool true)
                  eq_refl eq_refl)).
Defined.

(** ** More on the path of the output file *)

Section Resolve.

Context {B : Backend}.
Variable cwd : list string.
Variable DEFAULT_OUTPUT_DIRECTORY : string.

(** What a successful run of lines 105 to 133 went through. *)
Lemma resolve_inv (suffix : string) (quantity : Quantity) (year : Z)
  (config : dict) (filename : Path) (overwrite : pyval) (params : dict) :
  resolve cwd DEFAULT_OUTPUT_DIRECTORY suffix quantity year config
  = Ok (filename, overwrite, params) ->
  exists filestring lsuffix sector formatted,
    py_str (Dict.get_default "filename" (VStr default_filename) config)
    = Ok filestring
    /\ dotted_suffix (Dict.get_default "suffix" (VStr suffix) config)
       = Ok lsuffix
    /\ Dict.get_default "sector" (VStr "") config = VStr sector
    /\ format filestring
         (format_arguments cwd DEFAULT_OUTPUT_DIRECTORY
            (name_for_path quantity) (VStr sector) (title sector) year lsuffix)
       = Ok formatted
    /\ filename = Path_of formatted.
Proof.
  unfold resolve, Dict.pop_default. cbv zeta.
  destruct (py_str _) as [filestring|] eqn:Hstr; [|done]. cbn [rbind].
  destruct (dotted_suffix _) as [lsuffix|] eqn:Hsuffix; [|done].
  cbn [rbind].
  destruct (Dict.get_default "sector" _ _) as [| | |sector|] eqn:Hsector;
    try done.
  cbn [rbind]. destruct (format _ _) as [formatted|] eqn:Hformat; [|done].
  cbn [rbind]. intros [= <- _ _].
  exists filestring, lsuffix, sector, formatted.
  unfold Dict.get_default in *.
  rewrite !get_remove_ne in Hsuffix by done.
  rewrite !get_remove_ne in Hsector by done.
  done.
Qed.

Lemma format_no_braces template kwargs :
  no_braces template = true -> format template kwargs = Ok template.
Proof.
  unfold format. induction template as [|c rest IH]; [done|].
  cbn [no_braces format_from]. intros H.
  apply andb_prop in H as [H Hrest]. apply andb_prop in H as [Hopen Hclose].
  apply negb_true_iff in Hopen, Hclose. rewrite Hopen, Hclose.
  by rewrite IH.
Qed.

(** X8: a filename without braces is the path of every call: whatever
    the quantity, its name, the sector and the year, a call that
    resolves its path resolves it to that filename. *)
Theorem resolve_literal_filename (suffix : string) (quantity : Quantity)
  (year : Z) (config : dict) (template : string) (filename : Path)
  (overwrite : pyval) (params : dict)
  (Htemplate : Dict.get "filename" config = Some (VStr template))
  (Hliteral : no_braces template = true)
  (Hres : resolve cwd DEFAULT_OUTPUT_DIRECTORY suffix quantity year config
          = Ok (filename, overwrite, params)) :
  filename = Path_of template.
Proof.
  apply resolve_inv in Hres
    as (filestring & lsuffix & sector & formatted
        & Hstr & _ & _ & Hformat & ->).
  unfold Dict.get_default in Hstr. rewrite Htemplate in Hstr.
  injection Hstr as <-. rewrite format_no_braces in Hformat by done.
  by injection Hformat as <-.
Qed.

(** X9: a configured suffix with and without its leading dot resolve
    alike. *)
Theorem resolve_dotted_suffix (suffix : string) (quantity : Quantity)
  (year : Z) (config : dict) (c : ascii) (s : string)
  (Hdot : Ascii.eqb c "." = false) :
  resolve cwd DEFAULT_OUTPUT_DIRECTORY suffix quantity year
    (("suffix", VStr (String c s)) :: config)
  = resolve cwd DEFAULT_OUTPUT_DIRECTORY suffix quantity year
      (("suffix", VStr (String "." (String c s))) :: config).
Proof.
  unfold resolve, Dict.pop_default.
  change (Dict.get_default "filename" ?d (("suffix", ?v) :: config))
    with (Dict.get_default "filename" d config).
  change (Dict.remove "filename" (("suffix", ?v) :: config))
    with (("suffix", v) :: Dict.remove "filename" config).
  change (Dict.get_default "overwrite" ?d (("suffix", ?v) :: ?r))
    with (Dict.get_default "overwrite" d r).
  change (Dict.remove "overwrite" (("suffix", ?v) :: ?r))
    with (("suffix", v) :: Dict.remove "overwrite" r).
  change (Dict.get_default "sector" ?d (("suffix", ?v) :: ?r))
    with (Dict.get_default "sector" d r).
  change (Dict.remove "sector" (("suffix", ?v) :: ?r))
    with (("suffix", v) :: Dict.remove "sector" r).
  change (Dict.get_default "suffix" ?d (("suffix", ?v) :: ?r)) with v.
  change (Dict.remove "suffix" (("suffix", ?v) :: ?r))
    with (Dict.remove "suffix" r).
  cbv zeta. cbn [dotted_suffix]. by rewrite Hdot.
Qed.

(** The path under the default template: the output directory, then
    the capitalised sector, the year, the capitalised name of the
    quantity and the text of the suffix. *)
Lemma resolve_default (suffix : string) (quantity : Quantity) (year : Z)
  (config : dict) (sector : string) (lsuffix : pyval) (text : string) :
  Dict.get "filename" config = None ->
  Dict.get_default "sector" (VStr "") config = VStr sector ->
  dotted_suffix (Dict.get_default "suffix" (VStr suffix) config)
  = Ok lsuffix ->
  py_str lsuffix = Ok text ->
  resolve cwd DEFAULT_OUTPUT_DIRECTORY suffix quantity year config
  = Ok (Path_of (DEFAULT_OUTPUT_DIRECTORY ++ "/" ++ title sector
                 ++ str_of_int year ++ title (name_for_path quantity)
                 ++ text),
        Dict.get_default "overwrite" (VBool false) config,
        Dict.remove "suffix" (Dict.remove "sector"
          (Dict.remove "overwrite" (Dict.remove "filename" config)))).
Proof.
  intros Hfilename Hsector Hsuffix Htext.
  unfold resolve, Dict.pop_default. cbv zeta.
  unfold Dict.get_default in *.
  rewrite !get_remove_ne by done.
  rewrite Hfilename. cbn [py_str rbind].
  rewrite Hsector, Hsuffix. cbn [rbind].
  rewrite <- (append_empty text).
  destruct lsuffix as [|[]| | |]; try discriminate Htext;
    cbn [py_str] in Htext; injection Htext as <-; reflexivity.
Qed.

(** X10: with no filename configured the path is the output directory,
    then the capitalised sector, the year, the capitalised name of the
    quantity and the suffix.  A configured suffix of [None] goes into
    the path as the text [None]; a suffix text, configured or the
    decorator's own, goes in as nothing when empty and else with
    exactly one leading dot more if it starts with none. *)
Theorem resolve_suffix_none (suffix : string) (quantity : Quantity)
  (year : Z) (config : dict) (sector : string)
  (Hfilename : Dict.get "filename" config = None)
  (Hsector : Dict.get_default "sector" (VStr "") config = VStr sector) :
  let path (text : string) : result (Path * pyval * dict) :=
    Ok (Path_of (DEFAULT_OUTPUT_DIRECTORY ++ "/" ++ title sector
                 ++ str_of_int year ++ title (name_for_path quantity)
                 ++ text),
        Dict.get_default "overwrite" (VBool false) config,
        Dict.remove "suffix" (Dict.remove "sector"
          (Dict.remove "overwrite" (Dict.remove "filename" config)))) in
  (Dict.get "suffix" config = Some VNone ->
   resolve cwd DEFAULT_OUTPUT_DIRECTORY suffix quantity year config
   = path "None")
  /\ (forall s : string,
        Dict.get_default "suffix" (VStr suffix) config = VStr s ->
        resolve cwd DEFAULT_OUTPUT_DIRECTORY suffix quantity year config
        = path match s with
               | EmptyString => ""
               | String c _ => if Ascii.eqb c "." then s else "." ++ s
               end).
Proof.
  intros path. split.
  - intros Hnone.
    apply (resolve_default suffix quantity year config sector VNone);
      try done.
    unfold Dict.get_default. by rewrite Hnone.
  - intros s Hs. destruct s as [|c s].
    + apply (resolve_default suffix quantity year config sector (VStr ""));
        try done.
      by rewrite Hs.
    + destruct (Ascii.eqb c ".") eqn:Hdot.
      * apply (resolve_default suffix quantity year config sector
                 (VStr (String c s))); try done.
        rewrite Hs. cbn [dotted_suffix]. by rewrite Hdot.
      * apply (resolve_default suffix quantity year config sector
                 (VStr ("." ++ String c s))); try done.
        rewrite Hs. cbn [dotted_suffix]. by rewrite Hdot.
Qed.

End Resolve.

Lemma resolve_literal_filename_witness :
  match
    resolve (B := Rows.backend) ["home"] "Results" ".csv"
      (Rows.named "capacity" Rows.capacity) 2030
      [("filename", VStr "out/all.csv"); ("sector", VStr "power")]
  with
  | Ok (filename, _, _) => filename = Path_of "out/all.csv"
  | Err _ => False
  end.
Proof.
  exact (resolve_literal_filename (B := Rows.backend) ["home"] "Results"
           ".csv" (Rows.named "capacity" Rows.capacity) 2030
           [("filename", VStr "out/all.csv"); ("sector", VStr "power")]
           "out/all.csv" (mkPath false ["out"; "all.csv"]) (VBool false) []
           eq_refl eq_refl eq_refl).
Defined.

Lemma resolve_suffix_none_witness :
  resolve (B := Rows.backend) ["home"] "Results" ".csv"
    (Rows.named "capacity" Rows.capacity) 2030
    [("overwrite", VBool true); ("suffix", VNone); ("sector", VStr "power")]
  = Ok (Path_of "Results/Power2030CapacityNone", VBool true, [])
  /\ resolve (B := Rows.backend) ["home"] "Results" ".csv"
       (Rows.named "capacity" Rows.capacity) 2030
       [("overwrite", VBool true); ("sector", VStr "power")]
     = Ok (Path_of "Results/Power2030Capacity.csv", VBool true, []).
Proof.
  split.
  - exact (proj1 (resolve_suffix_none (B := Rows.backend) ["home"] "Results"
                    ".csv" (Rows.named "capacity" Rows.capacity) 2030
                    [("overwrite", VBool true); ("suffix", VNone);
                     ("sector", VStr "power")] "power" eq_refl eq_refl)
             eq_refl).
  - exact (proj2 (resolve_suffix_none (B := Rows.backend) ["home"] "Results"
                    ".csv" (Rows.named "capacity" Rows.capacity) 2030
                    [("overwrite", VBool true); ("sector", VStr "power")]
                    "power" eq_refl eq_refl)
             ".csv" eq_refl).
Defined.

Lemma resolve_dotted_suffix_witness :
  resolve (B := Rows.backend) ["home"] "Results" ".csv"
    (Rows.unnamed Rows.prices) 2020 [("suffix", VStr "txt")]
  = resolve (B := Rows.backend) ["home"] "Results" ".csv"
      (Rows.unnamed Rows.prices) 2020 [("suffix", VStr ".txt")].
Proof.
  exact (resolve_dotted_suffix (B := Rows.backend) ["home"] "Results" ".csv"
           (Rows.unnamed Rows.prices) 2020 [] "t" "xt" eq_refl).
Defined.

(** ** More on the file sinks *)

Section FileSinkRuns.

Local Open Scope list_scope.

Context {B : Backend}.
Variable cwd : list string.
Variable DEFAULT_OUTPUT_DIRECTORY : string.

Lemma sink_to_file_steps (suffix : string)
  (function : Quantity -> Path -> dict -> io unit) (quantity : Quantity)
  (year : Z) (config : dict) (fs : FS) (filename : Path) (overwrite : pyval)
  (params : dict) :
  resolve cwd DEFAULT_OUTPUT_DIRECTORY suffix quantity year config
  = Ok (filename, overwrite, params) ->
  sink_to_file cwd DEFAULT_OUTPUT_DIRECTORY suffix function quantity year
    config fs
  = io_bind (check_overwrite cwd filename overwrite)
      (fun _ => write_out cwd function quantity filename params) fs.
Proof.
  intros Hres. unfold sink_to_file, io_bind at 1, io_lift. by rewrite Hres.
Qed.

Lemma writer_function_content (w : writer) (quantity : Quantity)
  (filename : Path) (params : dict) (fs : FS) :
  writer_function cwd w quantity filename params fs
  = library_write cwd filename (writer_content w quantity params) fs.
Proof.
  destruct w; [| done |];
    cbn [writer_function writer_content];
    unfold to_csv, to_excel, library_write, io_bind, io_lift;
    by destruct (as_dataframe quantity).
Qed.

Lemma locate_parent (p : Path) :
  parts p <> [] ->
  locate cwd p = locate cwd (path_parent p) ++ [List.last (parts p) ""%string].
Proof.
  intros Hparts. unfold locate, path_parent. cbn [anchored parts].
  pose proof (app_removelast_last ""%string Hparts) as Hlast.
  destruct (anchored p); [done|].
  rewrite <- app_assoc. by rewrite <- Hlast.
Qed.

(** Lines 145 to 147 with a registered writer on a file system where
    the path is free and no regular file is in the way of its parent
    directories. *)
Lemma write_out_library (w : writer) (quantity : Quantity) (filename : Path)
  (params : dict) (fs : FS) :
  parts filename <> [] ->
  fs !! locate cwd filename = None ->
  (forall k c0, k <> [] -> k `prefix_of` locate cwd (path_parent filename) ->
                fs !! k <> Some (File c0)) ->
  exists fs1 : FS,
    (forall k, k <> [] -> k `prefix_of` locate cwd (path_parent filename) ->
               fs1 !! k = Some Directory)
    /\ (forall k, ~ k `prefix_of` locate cwd (path_parent filename) ->
                  fs1 !! k = fs !! k)
    /\ write_out cwd (writer_function cwd w) quantity filename params fs
       = match writer_content w quantity params with
         | Ok c => (<[locate cwd filename := File c]> fs1, Ok filename)
         | Err e => (fs1, Err e)
         end.
Proof.
  intros Hparts Hfree Hdirs.
  destruct (mkdir_parents_spec cwd (path_parent filename) fs Hdirs)
    as (fs1 & Hrun & Hmade & Hother & _).
  exists fs1. split; [done|]. split; [done|].
  unfold write_out, io_bind. rewrite Hrun, writer_function_content.
  unfold library_write, io_bind, io_lift.
  destruct (writer_content w quantity params) as [c|e]; [|done].
  unfold write_file, stat.
  pose proof (locate_parent filename Hparts) as Hloc.
  assert (fs1 !! locate cwd filename = None) as Hfree1.
  { rewrite Hother; [done|]. rewrite Hloc. apply prefix_snoc_not. }
  rewrite Hfree1.
  destruct (locate cwd filename) eqn:E; [|done].
  by destruct (locate cwd (path_parent filename)).
Qed.

(** A call of a file sink with a registered writer, where the path is
    free, or holds a file and [overwrite] is true, and no regular file
    is in the way of the parent directories. *)
Lemma sink_to_file_run (suffix : string) (w : writer) (quantity : Quantity)
  (year : Z) (config : dict) (fs : FS) (filename : Path) (overwrite : pyval)
  (params : dict) :
  resolve cwd DEFAULT_OUTPUT_DIRECTORY suffix quantity year config
  = Ok (filename, overwrite, params) ->
  parts filename <> [] ->
  (fs !! locate cwd filename = None
   \/ truthy overwrite = true
      /\ exists c0, fs !! locate cwd filename = Some (File c0)) ->
  (forall k c0, k <> [] -> k `prefix_of` locate cwd (path_parent filename) ->
                fs !! k <> Some (File c0)) ->
  exists fs1 : FS,
    (forall k, k <> [] -> k `prefix_of` locate cwd (path_parent filename) ->
               fs1 !! k = Some Directory)
    /\ fs1 !! locate cwd filename = None
    /\ (forall k, k <> locate cwd filename ->
                  ~ k `prefix_of` locate cwd (path_parent filename) ->
                  fs1 !! k = fs !! k)
    /\ sink_to_file cwd DEFAULT_OUTPUT_DIRECTORY suffix
         (writer_function cwd w) quantity year config fs
       = match writer_content w quantity params with
         | Ok c => (<[locate cwd filename := File c]> fs1, Ok filename)
         | Err e => (fs1, Err e)
         end.
Proof.
  intros Hres Hparts Hfree Hdirs.
  pose proof (locate_parent filename Hparts) as Hloc.
  assert (locate cwd filename <> []) as Hne.
  { rewrite Hloc. by destruct (locate cwd (path_parent filename)). }
  assert (~ locate cwd filename `prefix_of` locate cwd (path_parent filename))
    as Hnotpre.
  { rewrite Hloc. apply prefix_snoc_not. }
  assert (forall fs0 : FS, stat (locate cwd filename) fs0
                           = fs0 !! locate cwd filename) as Hstat.
  { intros fs0. unfold stat. by destruct (locate cwd filename). }
  rewrite (sink_to_file_steps _ _ _ _ _ _ _ _ _ Hres).
  unfold io_bind at 1, check_overwrite, path_exists. rewrite Hstat.
  destruct Hfree as [Hfree|(Hover & c0 & Hfile)].
  - rewrite Hfree.
    destruct (write_out_library w quantity filename params fs
                Hparts Hfree Hdirs) as (fs1 & Hmade & Hother & Hrun).
    exists fs1. split; [done|]. split; [by rewrite Hother|].
    split; [intros k _ Hk; by apply Hother | done].
  - rewrite Hfile, Hover. unfold unlink. rewrite Hstat, Hfile.
    destruct (write_out_library w quantity filename params
                (delete (locate cwd filename) fs) Hparts)
      as (fs1 & Hmade & Hother & Hrun).
    { apply lookup_delete_eq. }
    { intros k c1 Hk Hpre Hlook. apply lookup_delete_Some in Hlook as [_ Hlook].
      by apply (Hdirs k c1). }
    exists fs1. split; [done|].
    split; [rewrite Hother by done; apply lookup_delete_eq|].
    split; [|done].
    intros k Hk Hpre. rewrite Hother by done. by apply lookup_delete_ne.
Qed.

End FileSinkRuns.

Section FileSinkProperties.

Local Open Scope list_scope.

Context {B : Backend}.
Variable cwd : list string.
Variable DEFAULT_OUTPUT_DIRECTORY : string.

(** X11: a call of a registered file sink whose path is free, or holds
    a file with [overwrite] true, and whose library call returns,
    returns the path and leaves there a file with what the library
    encoded; the directories above it are there; and every other path
    of the file system is as it was. *)
Theorem sink_to_file_writes (suffix : string) (w : writer)
  (quantity : Quantity) (year : Z) (config : dict) (fs : FS)
  (filename : Path) (overwrite : pyval) (params : dict) (c : content)
  (Hres : resolve cwd DEFAULT_OUTPUT_DIRECTORY suffix quantity year config
          = Ok (filename, overwrite, params))
  (Hparts : parts filename <> [])
  (Hfree : fs !! locate cwd filename = None
           \/ truthy overwrite = true
              /\ exists c0, fs !! locate cwd filename = Some (File c0))
  (Hdirs : forall k c0, k <> [] ->
             k `prefix_of` locate cwd (path_parent filename) ->
             fs !! k <> Some (File c0))
  (Hcontent : writer_content w quantity params = Ok c) :
  exists fs' : FS,
    sink_to_file cwd DEFAULT_OUTPUT_DIRECTORY suffix (writer_function cwd w)
      quantity year config fs = (fs', Ok filename)
    /\ fs' !! locate cwd filename = Some (File c)
    /\ (forall k, k <> [] ->
          k `prefix_of` locate cwd (path_parent filename) ->
          fs' !! k = Some Directory)
    /\ (forall k, k <> locate cwd filename ->
          ~ k `prefix_of` locate cwd (path_parent filename) ->
          fs' !! k = fs !! k).
Proof.
  destruct (sink_to_file_run cwd DEFAULT_OUTPUT_DIRECTORY suffix w quantity
              year config fs filename overwrite params Hres Hparts Hfree Hdirs)
    as (fs1 & Hmade & Hgone & Hother & Hrun).
  rewrite Hcontent in Hrun.
  exists (<[locate cwd filename := File c]> fs1).
  split; [done|]. split; [apply lookup_insert_eq|]. split.
  - intros k Hk Hpre. rewrite lookup_insert_ne; [by apply Hmade|].
    intros <-. revert Hpre. rewrite (locate_parent cwd filename Hparts).
    apply prefix_snoc_not.
  - intros k Hk Hpre. rewrite lookup_insert_ne by done. by apply Hother.
Qed.

(** X12: when the library call of the writer raises, the call of the
    sink raises the same exception and no file is at the path: one that
    was there and was to be overwritten is gone, deleted before the
    writer ran. *)
Theorem sink_to_file_writer_raises (suffix : string) (w : writer)
  (quantity : Quantity) (year : Z) (config : dict) (fs : FS)
  (filename : Path) (overwrite : pyval) (params : dict) (c0 : content)
  (e : exn)
  (Hres : resolve cwd DEFAULT_OUTPUT_DIRECTORY suffix quantity year config
          = Ok (filename, overwrite, params))
  (Hparts : parts filename <> [])
  (Hfile : fs !! locate cwd filename = Some (File c0))
  (Hoverwrite : truthy overwrite = true)
  (Hdirs : forall k c1, k <> [] ->
             k `prefix_of` locate cwd (path_parent filename) ->
             fs !! k <> Some (File c1))
  (Hraise : writer_content w quantity params = Err e) :
  exists fs' : FS,
    sink_to_file cwd DEFAULT_OUTPUT_DIRECTORY suffix (writer_function cwd w)
      quantity year config fs = (fs', Err e)
    /\ fs' !! locate cwd filename = None
    /\ (forall k, k <> locate cwd filename ->
          ~ k `prefix_of` locate cwd (path_parent filename) ->
          fs' !! k = fs !! k).
Proof.
  destruct (sink_to_file_run cwd DEFAULT_OUTPUT_DIRECTORY suffix w quantity
              year config fs filename overwrite params Hres Hparts
              (or_intror (conj Hoverwrite (ex_intro _ c0 Hfile))) Hdirs)
    as (fs1 & Hmade & Hgone & Hother & Hrun).
  rewrite Hraise in Hrun. by exists fs1.
Qed.

Lemma make_dirs_blocked (prefix above : list string) (x : string)
  (below : list string) (fs : FS) (c0 : content) :
  (forall k, k <> [] -> k `prefix_of` above ->
             fs !! (prefix ++ k) = Some Directory) ->
  fs !! (prefix ++ above ++ [x]) = Some (File c0) ->
  make_dirs prefix (above ++ x :: below) fs
  = (fs, Err (OSError "NotADirectoryError")).
Proof.
  revert prefix. induction above as [|a above IH]; intros prefix Hdirs Hfile.
  - cbn in *. by rewrite Hfile.
  - cbn [app make_dirs].
    rewrite (Hdirs [a]) by (done || apply prefix_cons, prefix_nil).
    apply IH.
    + intros k Hk Hpre. rewrite <- app_assoc. apply Hdirs; [done|].
      by apply prefix_cons.
    + by rewrite <- app_assoc.
Qed.

(** X13: when the path is free and a regular file stands where one of
    its parent directories should be, the directories above that file
    being there, the call raises an [OSError] on the file system as it
    was, whatever the wrapped function is. *)
Theorem sink_to_file_blocked (suffix : string)
  (function : Quantity -> Path -> dict -> io unit) (quantity : Quantity)
  (year : Z) (config : dict) (fs : FS) (filename : Path) (overwrite : pyval)
  (params : dict) (above : list string) (x : string) (below : list string)
  (c0 : content)
  (Hres : resolve cwd DEFAULT_OUTPUT_DIRECTORY suffix quantity year config
          = Ok (filename, overwrite, params))
  (Hfree : path_exists cwd filename fs = false)
  (Hparent : locate cwd (path_parent filename) = above ++ x :: below)
  (Habove : forall k, k <> [] -> k `prefix_of` above ->
              fs !! k = Some Directory)
  (Hblock : fs !! (above ++ [x]) = Some (File c0)) :
  exists msg,
    sink_to_file cwd DEFAULT_OUTPUT_DIRECTORY suffix function quantity year
      config fs = (fs, Err (OSError msg)).
Proof.
  eexists. rewrite (sink_to_file_steps _ _ _ _ _ _ _ _ _ _ _ Hres).
  unfold io_bind at 1, check_overwrite. rewrite Hfree.
  unfold write_out, io_bind, mkdir_parents. rewrite Hparent.
  by rewrite (make_dirs_blocked [] above x below fs c0).
Qed.

(** X14: two calls on one path.  After a first call that wrote the
    file, a second call under a false [overwrite] raises the
    already-exists error and leaves the file of the first; under a true
    [overwrite] it returns the path and the file holds what the second
    call encoded. *)
Theorem sink_to_file_twice (suffix : string) (w : writer)
  (first second : Quantity) (year year' : Z) (config : dict) (fs : FS)
  (filename : Path) (overwrite : pyval) (params : dict) (c c' : content)
  (Hres : resolve cwd DEFAULT_OUTPUT_DIRECTORY suffix first year config
          = Ok (filename, overwrite, params))
  (Hres' : resolve cwd DEFAULT_OUTPUT_DIRECTORY suffix second year' config
           = Ok (filename, overwrite, params))
  (Hparts : parts filename <> [])
  (Hfree : fs !! locate cwd filename = None)
  (Hdirs : forall k c0, k <> [] ->
             k `prefix_of` locate cwd (path_parent filename) ->
             fs !! k <> Some (File c0))
  (Hcontent : writer_content w first params = Ok c)
  (Hcontent' : writer_content w second params = Ok c') :
  let sink quantity year :=
    sink_to_file cwd DEFAULT_OUTPUT_DIRECTORY suffix (writer_function cwd w)
      quantity year config in
  exists fs1 : FS,
    sink first year fs = (fs1, Ok filename)
    /\ fs1 !! locate cwd filename = Some (File c)
    /\ if truthy overwrite
       then exists fs2 : FS,
              sink second year' fs1 = (fs2, Ok filename)
              /\ fs2 !! locate cwd filename = Some (File c')
       else sink second year' fs1 = (fs1, Err (already_exists filename)).
Proof.
  intros sink.
  destruct (sink_to_file_run cwd DEFAULT_OUTPUT_DIRECTORY suffix w first
              year config fs filename overwrite params Hres Hparts
              (or_introl Hfree) Hdirs)
    as (fs0 & Hmade & Hgone & Hother & Hrun).
  rewrite Hcontent in Hrun.
  pose proof (locate_parent cwd filename Hparts) as Hloc.
  assert (locate cwd filename <> []) as Hne.
  { rewrite Hloc. by destruct (locate cwd (path_parent filename)). }
  set (fs1 := <[locate cwd filename := File c]> fs0) in *.
  assert (fs1 !! locate cwd filename = Some (File c)) as Hfile
    by apply lookup_insert_eq.
  exists fs1. split; [done|]. split; [done|].
  destruct (truthy overwrite) eqn:Hover.
  - destruct (sink_to_file_run cwd DEFAULT_OUTPUT_DIRECTORY suffix w second
                year' config fs1 filename overwrite params Hres' Hparts)
      as (fs2 & _ & _ & _ & Hrun').
    { right. split; [done|]. by exists c. }
    { intros k c0 Hk Hpre. unfold fs1. rewrite lookup_insert_ne.
      - by rewrite (Hmade k Hk Hpre).
      - intros <-. revert Hpre. rewrite Hloc. apply prefix_snoc_not. }
    rewrite Hcontent' in Hrun'.
    exists (<[locate cwd filename := File c']> fs2).
    split; [done | apply lookup_insert_eq].
  - unfold sink. rewrite (sink_to_file_steps _ _ _ _ _ _ _ _ _ _ _ Hres').
    unfold io_bind, check_overwrite, path_exists, stat.
    destruct (locate cwd filename) eqn:E; [done|].
    by rewrite Hfile, Hover.
Qed.

End FileSinkProperties.

(** ** More on the yearly aggregate *)

Section AggregateProperties.

Local Open Scope list_scope.

Context {B : Backend}.
Variable cwd : list string.
Variable DEFAULT_OUTPUT_DIRECTORY : string.

Lemma call_forget (s : Sink) (data : Quantity) (year : Z) (fs : FS) :
  forget (fst (call cwd DEFAULT_OUTPUT_DIRECTORY s data year fs)) = forget s.
Proof.
  revert data fs. induction s as [w kw|sink IH aggregate axis]; intros data fs.
  - done.
  - cbn [call]. destruct (year_slice axis data year) as [slice|e]; [|done].
    specialize (IH (QFrame (rename_like data (accumulate aggregate slice)))
                  fs).
    destruct (call cwd DEFAULT_OUTPUT_DIRECTORY sink _ year fs) as [sink' out].
    cbn [fst forget] in *. by rewrite IH.
Qed.

(** X15: calls change nothing of a sink but what its aggregates have
    accumulated: after any run of calls, failed ones included, the
    writer, its keyword arguments, the nesting of aggregates and their
    axes are those the factory built. *)
Theorem run_keeps_sink (s : Sink) (calls : list (Quantity * Z)) (fs : FS) :
  forget (fst (fst (run cwd DEFAULT_OUTPUT_DIRECTORY s calls fs))) = forget s.
Proof.
  revert s fs. induction calls as [|[data year] calls IH]; intros s fs.
  - done.
  - cbn [run]. pose proof (call_forget s data year fs) as Hcall.
    destruct (call cwd DEFAULT_OUTPUT_DIRECTORY s data year fs)
      as [s' [fs' r]].
    specialize (IH s' fs').
    destruct (run cwd DEFAULT_OUTPUT_DIRECTORY s' calls fs') as [[s'' fs''] rs].
    cbn [fst] in *. by rewrite IH.
Qed.

(** A frame that comes out of the filter without a name of its own
    went in without one. *)
Lemma filter_year_name (axis : pyval) (year : Z)
  (dataframe slice : DataFrame) :
  filter_year axis year dataframe = Ok slice ->
  df_name dataframe = None -> df_name slice = None.
Proof.
  unfold filter_year, cross_section. intros Hslice Hname.
  destruct axis as [|b|z|a|d]; try discriminate Hslice;
    try (by injection Hslice as <-).
  - destruct (level_in None _); [|by injection Hslice as <-].
    destruct (xs year None _); [|done]. by injection Hslice as <-.
  - destruct (label_in a _); [by injection Hslice as <-|].
    destruct (level_in (Some a) _); [|by injection Hslice as <-].
    destruct (xs year (Some a) _); [|done]. by injection Hslice as <-.
Qed.

(** X16: after every call that takes its slice, the container of an
    aggregate carries the name of the quantity of that call, and no
    name if that quantity has none, so that a file sink below it names
    its file after the latest quantity. *)
Theorem YearlyAggregate_container_name (sink : Sink)
  (aggregate : option DataFrame) (axis : pyval) (data : Quantity) (year : Z)
  (fs : FS) (slice : DataFrame)
  (Hslice : year_slice axis data year = Ok slice) :
  exists sink' container,
    fst (call cwd DEFAULT_OUTPUT_DIRECTORY
           (YearlyAggregate sink aggregate axis) data year fs)
    = YearlyAggregate sink' (Some container) axis
    /\ df_table container = df_table (accumulate aggregate slice)
    /\ df_name container = quantity_name data
    /\ name_for_path (QFrame container) = name_for_path data.
Proof.
  cbn [call]. rewrite Hslice.
  destruct (call cwd DEFAULT_OUTPUT_DIRECTORY sink _ year fs) as [sink' out].
  eexists _, _. split; [reflexivity|].
  assert (df_name (rename_like data (accumulate aggregate slice))
          = quantity_name data) as Hname.
  { unfold rename_like.
    destruct (quantity_name data) as [n|] eqn:Hn; [done|].
    destruct aggregate as [a|]; [done|]. cbn [accumulate].
    unfold year_slice in Hslice.
    destruct (as_dataframe data) as [dataframe|] eqn:Hframe; [|done].
    cbn [rbind] in Hslice.
    apply (filter_year_name axis year dataframe slice Hslice).
    destruct data as [df|a]; cbn [as_dataframe quantity_name] in *.
    - by injection Hframe as <-.
    - by rewrite Hn in Hframe. }
  split; [|split; [done|]].
  - unfold rename_like. by destruct (quantity_name data).
  - unfold name_for_path. cbn [quantity_name]. by rewrite Hname.
Qed.

(** X17: a call of an aggregate over a registered writer that gets to
    write leaves in the file what the library encoded from the whole
    container, the slices of the earlier calls included, not from the
    slice of the call. *)
Theorem YearlyAggregate_writes_whole (w : writer) (keywords : dict)
  (aggregate : option DataFrame) (axis : pyval) (data : Quantity) (year : Z)
  (fs : FS) (slice : DataFrame) (filename : Path) (overwrite : pyval)
  (params : dict) (c : content) :
  let whole := rename_like data (accumulate aggregate slice) in
  forall
    (Hslice : year_slice axis data year = Ok slice)
    (Hquantity : Dict.contains "quantity" keywords = false)
    (Hres : resolve cwd DEFAULT_OUTPUT_DIRECTORY (writer_suffix w)
              (QFrame whole) year (Dict.remove "year" keywords)
            = Ok (filename, overwrite, params))
    (Hparts : parts filename <> [])
    (Hfree : fs !! locate cwd filename = None
             \/ truthy overwrite = true
                /\ exists c0, fs !! locate cwd filename = Some (File c0))
    (Hdirs : forall k c0, k <> [] ->
               k `prefix_of` locate cwd (path_parent filename) ->
               fs !! k <> Some (File c0))
    (Hcontent : writer_content w (QFrame whole) params = Ok c),
  exists fs' : FS,
    call cwd DEFAULT_OUTPUT_DIRECTORY
      (YearlyAggregate (Partial w keywords) aggregate axis) data year fs
    = (YearlyAggregate (Partial w keywords) (Some whole) axis,
       (fs', Ok filename))
    /\ fs' !! locate cwd filename = Some (File c).
Proof.
  intros whole Hslice Hquantity Hres Hparts Hfree Hdirs Hcontent.
  destruct (sink_to_file_run cwd DEFAULT_OUTPUT_DIRECTORY (writer_suffix w) w
              (QFrame whole) year (Dict.remove "year" keywords) fs filename
              overwrite params Hres Hparts Hfree Hdirs)
    as (fs1 & _ & _ & _ & Hrun).
  rewrite Hcontent in Hrun.
  exists (<[locate cwd filename := File c]> fs1).
  split; [|apply lookup_insert_eq].
  cbn [call]. rewrite Hslice. fold whole. by rewrite Hquantity, Hrun.
Qed.

End AggregateProperties.

(** ** The aggregate over a file: the file holds every year *)

Section AggregateFile.

Local Open Scope list_scope.

Context {B : Backend}.
Variable cwd : list string.
Variable DEFAULT_OUTPUT_DIRECTORY : string.








End AggregateFile.

(** ** Runs on the backend of rows *)

Lemma no_parent_in_the_way `{B : Backend} (fs : FS) :
  forall (k : list string) (c0 : content),
    k <> [] -> k `prefix_of` [] -> fs !! k <> Some (File c0).
Proof. intros k c0 Hk Hpre. by apply prefix_nil_inv in Hpre. Qed.

Lemma sink_to_file_writes_witness :
  exists fs' : FS,
    sink_to_file (B := Rows.backend) [] "Results" ".csv" (to_csv [])
      (Rows.named "capacity" Rows.capacity) 2020
      [("filename", VStr "all.csv"); ("sector", VStr "power")] ∅
    = (fs', Ok (Path_of "all.csv"))
    /\ fs' !! ["all.csv"]
       = Some (File (Rows.Csv, Rows.capacity,
                     [("float_format", VStr "%.11f")])).
Proof.
  destruct (sink_to_file_writes (B := Rows.backend) [] "Results" ".csv" Wcsv
              (Rows.named "capacity" Rows.capacity) 2020
              [("filename", VStr "all.csv"); ("sector", VStr "power")] ∅
              (Path_of "all.csv") (VBool false) []
              (Rows.Csv, Rows.capacity, [("float_format", VStr "%.11f")])
              eq_refl ltac:(discriminate) (or_introl eq_refl)
              (no_parent_in_the_way ∅) eq_refl)
    as (fs' & Hcall & Hfile & _).
  exists fs'. split; [exact Hcall | exact Hfile].
Defined.

Lemma sink_to_file_writer_raises_witness :
  let old : @content backend_without_excel :=
    (Rows.Excel, Rows.prices, []) in
  exists fs' : FS,
    sink_to_file (B := backend_without_excel) [] "Results" ".xlsx"
      (to_excel [])
      (QFrame (mkDataFrame (B := backend_without_excel) None Rows.capacity))
      2020 [("filename", VStr "all.xlsx"); ("overwrite", VBool true)]
      {[ ["all.xlsx"] := File old ]}
    = (fs', Err (ModuleNotFoundError "No module named 'openpyxl'"))
    /\ fs' !! ["all.xlsx"] = None.
Proof.
  intros old.
  destruct (sink_to_file_writer_raises (B := backend_without_excel) []
              "Results" ".xlsx" Wexcel
              (QFrame (mkDataFrame (B := backend_without_excel) None
                         Rows.capacity))
              2020 [("filename", VStr "all.xlsx"); ("overwrite", VBool true)]
              {[ ["all.xlsx"] := File old ]}
              (Path_of "all.xlsx") (VBool true) [] old
              (ModuleNotFoundError "No module named 'openpyxl'")
              eq_refl ltac:(discriminate) eq_refl eq_refl
              (no_parent_in_the_way _) eq_refl)
    as (fs' & Hcall & Hgone & _).
  exists fs'. split; [exact Hcall | exact Hgone].
Defined.

Lemma sink_to_file_blocked_witness :
  let fs : FS := {[ ["out"] := File (Rows.Csv, Rows.prices, []) ]} in
  exists msg,
    sink_to_file (B := Rows.backend) [] "Results" ".csv" (to_csv [])
      (Rows.named "capacity" Rows.capacity) 2020
      [("filename", VStr "out/{year}.csv")] fs
    = (fs, Err (OSError msg)).
Proof.
  intros fs.
  apply (sink_to_file_blocked (B := Rows.backend) [] "Results" ".csv"
           (to_csv []) (Rows.named "capacity" Rows.capacity) 2020
           [("filename", VStr "out/{year}.csv")] fs
           (Path_of "out/2020.csv") (VBool false) [] [] "out" []
           (Rows.Csv, Rows.prices, []) eq_refl eq_refl eq_refl).
  - intros k Hk Hpre. by apply prefix_nil_inv in Hpre.
  - reflexivity.
Defined.

Lemma sink_to_file_twice_witness :
  let sink quantity :=
    sink_to_file (B := Rows.backend) [] "Results" ".csv" (to_csv [])
      quantity 2020 [("filename", VStr "all.csv"); ("overwrite", VBool true)]
  in
  exists fs1 fs2 : FS,
    sink (Rows.named "capacity" Rows.capacity) ∅
    = (fs1, Ok (Path_of "all.csv"))
    /\ sink (Rows.named "prices" Rows.prices) fs1
       = (fs2, Ok (Path_of "all.csv"))
    /\ fs2 !! ["all.csv"]
       = Some (File (Rows.Csv, Rows.prices,
                     [("float_format", VStr "%.11f")])).
Proof.
  intros sink.
  destruct (sink_to_file_twice (B := Rows.backend) [] "Results" ".csv" Wcsv
              (Rows.named "capacity" Rows.capacity)
              (Rows.named "prices" Rows.prices) 2020 2020
              [("filename", VStr "all.csv"); ("overwrite", VBool true)] ∅
              (Path_of "all.csv") (VBool true) []
              (Rows.Csv, Rows.capacity, [("float_format", VStr "%.11f")])
              (Rows.Csv, Rows.prices, [("float_format", VStr "%.11f")])
              eq_refl eq_refl ltac:(discriminate) eq_refl
              (no_parent_in_the_way ∅) eq_refl eq_refl)
    as (fs1 & Hfirst & _ & fs2 & Hsecond & Hfile).
  exists fs1, fs2. split; [exact Hfirst | split; [exact Hsecond | exact Hfile]].
Defined.

Lemma YearlyAggregate_container_name_witness :
  exists sink' container,
    fst (call (B := Rows.backend) [] "Results"
           (YearlyAggregate
              (Partial Wcsv [("filename", VStr "all.csv");
                             ("overwrite", VBool true)])
              None (VStr "year"))
           (Rows.named "capacity" Rows.capacity) 2020 ∅)
    = YearlyAggregate sink' (Some container) (VStr "year")
    /\ df_name container = Some "capacity".
Proof.
  destruct (YearlyAggregate_container_name (B := Rows.backend) [] "Results"
              (Partial Wcsv [("filename", VStr "all.csv");
                             ("overwrite", VBool true)])
              None (VStr "year") (Rows.named "capacity" Rows.capacity) 2020 ∅
              (Rows.data_frame None (Rows.select "year" 2020 Rows.capacity))
              eq_refl)
    as (sink' & container & Hcall & _ & Hname & _).
  exists sink', container. split; [exact Hcall | exact Hname].
Defined.

Lemma YearlyAggregate_writes_whole_witness :
  let earlier :=
    Rows.data_frame (Some "capacity") (Rows.select "year" 2020 Rows.capacity)
  in
  let whole :=
    Rows.append (Rows.select "year" 2020 Rows.capacity)
                (Rows.select "year" 2025 Rows.capacity) in
  exists fs' : FS,
    snd (call (B := Rows.backend) [] "Results"
           (YearlyAggregate
              (Partial Wcsv [("filename", VStr "all.csv");
                             ("overwrite", VBool true)])
              (Some earlier) (VStr "year"))
           (Rows.named "capacity" Rows.capacity) 2025 ∅)
    = (fs', Ok (Path_of "all.csv"))
    /\ fs' !! ["all.csv"]
       = Some (File (Rows.Csv, whole, [("float_format", VStr "%.11f")])).
Proof.
  intros earlier whole.
  destruct (YearlyAggregate_writes_whole (B := Rows.backend) [] "Results"
              Wcsv [("filename", VStr "all.csv"); ("overwrite", VBool true)]
              (Some earlier) (VStr "year")
              (Rows.named "capacity" Rows.capacity) 2025 ∅
              (Rows.data_frame None (Rows.select "year" 2025 Rows.capacity))
              (Path_of "all.csv") (VBool true) []
              (Rows.Csv, whole, [("float_format", VStr "%.11f")])
              eq_refl eq_refl eq_refl ltac:(discriminate)
              (or_introl eq_refl)
              (no_parent_in_the_way ∅) eq_refl)
    as (fs' & Hcall & Hfile).
  exists fs'. split; [by rewrite Hcall | exact Hfile].
Defined.


(** ** The settings beside an aggregate *)

Lemma update_fresh (d c : dict) :
  NoDup (Dict.keys c) ->
  (forall k, In k (Dict.keys c) -> Dict.get k d = None) ->
  Dict.update d c = (d ++ c)%list.
Proof.
  unfold Dict.update. revert d.
  induction c as [|[k0 v0] c IH]; intros d Hnd Hfresh.
  - cbn. by rewrite app_nil_r.
  - cbn in Hnd. apply NoDup_cons in Hnd as [Hnotin Hnd].
    cbn [fold_left fst snd].
    rewrite set_absent by (apply Hfresh; by left).
    rewrite IH; [by rewrite <- app_assoc | done |].
    intros k Hin. rewrite get_app, Hfresh by by right.
    cbn. destruct (String.eqb k k0) eqn:E; [|done].
    apply String.eqb_eq in E as ->. exfalso. apply Hnotin.
    by apply list_elem_of_In.
Qed.

Lemma remove_app k (a b : dict) :
  Dict.remove k (a ++ b)%list = (Dict.remove k a ++ Dict.remove k b)%list.
Proof. unfold Dict.remove. apply List.filter_app. Qed.

Lemma intersection_single (a : dict) k v :
  Dict.get k a = None -> Dict.intersection a [(k, v)] = [].
Proof.
  intros Hk. apply get_none_keys in Hk. unfold Dict.intersection.
  induction (Dict.keys a) as [|k0 ks IH]; [done|].
  cbn [List.filter]. unfold Dict.contains at 1. cbn [Dict.get].
  destruct (String.eqb k0 k) eqn:E.
  - apply String.eqb_eq in E as ->. exfalso. apply Hk. by left.
  - apply IH. intros Hin. apply Hk. by right.
Qed.

Lemma intersection_absent k v (b : dict) :
  Dict.get k b = None -> Dict.intersection [(k, v)] b = [].
Proof. intros Hk. unfold Dict.intersection, Dict.contains. cbn. by rewrite Hk. Qed.

(** X19: the settings beside an aggregate reach the writer below it.
    For a configuration of distinct keys whose sink is
    [{aggregate: name}] and whose other keys are none that the factory
    or the aggregate reads, [factory] returns the aggregate over the
    writer of the name, bound to the rest of the configuration as it
    is, then [overwrite] true, then the sector in lower case. *)
Theorem factory_aggregate_settings `{B : Backend} fuel name registered w
  sector (parameters : dict)
  (Hstrip : strip_dot (VStr name) = Ok registered)
  (Hwriter : lookup_sink OUTPUT_SINKS registered = Ok (Function w))
  (Hsink : Dict.get "sink" parameters
           = Some (VDict [("aggregate", VStr name)]))
  (Hdistinct : NoDup (Dict.keys parameters))
  (Hreserved : forall k,
     In k ["quantity"; "final_sink"; "sector"; "axis"; "name";
           "aggregate"; "overwrite"] -> Dict.get k parameters = None) :
  factory (S (S fuel)) OUTPUT_SINKS parameters (VStr sector)
  = Some (Ok (YearlyAggregate
                (Partial w (Dict.remove "sink" parameters
                            ++ [("overwrite", VBool true);
                                ("sector", VStr (lower sector))]))
                None (VStr "year"))).
Proof.
  set (c := Dict.remove "sink" parameters).
  assert (NoDup (Dict.keys c)) as Hdistinct' by by apply NoDup_remove.
  assert (forall k,
            In k ["sink"; "quantity"; "final_sink"; "sector"; "axis"; "name";
                  "aggregate"; "overwrite"] -> Dict.get k c = None)
    as Hreserved'.
  { intros k [<-|Hk]; [apply get_remove_eq|].
    unfold c. rewrite get_remove_ne; [by apply Hreserved|].
    intros ->. cbn in Hk. repeat destruct Hk as [Hk|Hk]; done. }
  assert (Dict.remove "quantity" parameters = parameters) as Hquantity.
  { apply remove_absent, Hreserved. cbn. tauto. }
  clear Hdistinct Hreserved.
  rename Hdistinct' into Hdistinct, Hreserved' into Hreserved.
  assert (forall k, In k ["sink"; "quantity"; "final_sink"; "sector"; "axis";
                          "name"; "aggregate"; "overwrite"] ->
                    Dict.remove k c = c) as Hremove.
  { intros k Hk. by apply remove_absent, Hreserved. }
  assert (forall k, In k (Dict.keys c) ->
                    In k ["sink"; "quantity"; "final_sink"; "sector"; "axis";
                          "name"; "aggregate"; "overwrite"] -> False)
    as Hkeys.
  { intros k Hin Hk. apply Hreserved in Hk. by apply get_none_keys in Hk. }
  (* the outer call: lines 43 to 74 *)
  assert (configure OUTPUT_SINKS parameters (VStr sector)
          = Ok (Class_YearlyAggregate,
                (("final_sink", VDict [("sink", VDict [("name", VStr name)])])
                 :: c ++ [("sector", VStr (lower sector))])%list))
    as Hconfigure.
  { unfold configure, Dict.pop_default. rewrite Hquantity. fold c.
    unfold Dict.get_default at 1. rewrite Hsink.
    rewrite normalize_mapping.
    change (Dict.get "aggregate" [("aggregate", VStr name)])
      with (Some (VStr name)).
    cbv beta iota. cbn [normalize wrap_aggregate rbind].
    change (Dict.pop "name" _)
      with (Ok (VStr "aggregate",
                [("final_sink",
                  VDict [("sink", VDict [("name", VStr name)])])])).
    cbn [rbind]. cbv zeta.
    rewrite intersection_absent by (apply Hreserved; cbn; tauto).
    cbn [length Nat.eqb negb lower_text rbind].
    rewrite update_fresh; [|done|].
    2:{ intros k Hin. destruct (String.eqb_spec k "final_sink") as [->|Hne].
        - exfalso. apply (Hkeys "final_sink" Hin). cbn. tauto.
        - cbn. apply String.eqb_neq in Hne. by rewrite Hne. }
    rewrite set_absent.
    2:{ cbn [app Dict.get].
        change (String.eqb "sector" "final_sink") with false.
        cbv iota. apply Hreserved. cbn. tauto. }
    reflexivity. }
  rewrite factory_step, Hconfigure.
  (* the constructor: lines 228 to 237 *)
  unfold YearlyAggregate_init, Dict.get_default.
  change (Dict.get "final_sink" (("final_sink", ?v) :: ?d)) with (Some v).
  cbv iota.
  assert (Dict.get "sector"
            (("final_sink", VDict [("sink", VDict [("name", VStr name)])])
             :: c ++ [("sector", VStr (lower sector))])%list
          = Some (VStr (lower sector))) as ->.
  { change (Dict.get "sector" (("final_sink", ?v) :: ?d))
      with (Dict.get "sector" d).
    rewrite get_app, Hreserved by (cbn; tauto). reflexivity. }
  assert (Dict.get "axis"
            (("final_sink", VDict [("sink", VDict [("name", VStr name)])])
             :: c ++ [("sector", VStr (lower sector))])%list
          = None) as ->.
  { change (Dict.get "axis" (("final_sink", ?v) :: ?d))
      with (Dict.get "axis" d).
    rewrite get_app, Hreserved by (cbn; tauto). reflexivity. }
  change (Dict.remove "final_sink" (("final_sink", ?v) :: ?d))
    with (Dict.remove "final_sink" d).
  rewrite !remove_app, !Hremove by (cbn; tauto).
  change (Dict.remove "axis" (Dict.remove "sector"
            (Dict.remove "final_sink" [("sector", VStr (lower sector))])))
    with (@nil (string * pyval)).
  rewrite app_nil_r.
  unfold inner_configuration, merge_kwargs.
  change (Dict.get "sink" [("sink", ?v)]) with (Some v). cbv iota.
  rewrite update_fresh; [|done|].
  2:{ intros k Hin. destruct (String.eqb_spec k "name") as [->|Hne].
      - exfalso. apply (Hkeys "name" Hin). cbn. tauto.
      - cbn. apply String.eqb_neq in Hne. by rewrite Hne. }
  cbn [rbind app]. unfold default_overwrite, has_overwrite.
  change (Dict.set "sink" ?v [("sink", ?v')]) with [("sink", v)].
  change (Dict.contains "overwrite" [("sink", ?v)]) with false.
  change (Dict.get "sink" [("sink", ?v)]) with (Some v). cbv iota.
  assert (Dict.contains "overwrite" (("name", VStr name) :: c) = false) as ->.
  { unfold Dict.contains. cbn [Dict.get].
    change (String.eqb "overwrite" "name") with false. cbv iota.
    by rewrite Hreserved by (cbn; tauto). }
  cbn [orb negb].
  change (Dict.set "overwrite" ?v [("sink", ?v')])
    with [("sink", v'); ("overwrite", v)].
  (* the inner call *)
  rewrite factory_step. unfold configure, Dict.pop_default.
  change (Dict.remove "quantity" [("sink", ?v); ("overwrite", ?o)])
    with [("sink", v); ("overwrite", o)].
  change (Dict.get_default "sink" VNone (("sink", ?v) :: ?d)) with v.
  change (Dict.remove "sink" [("sink", ?v); ("overwrite", ?o)])
    with [("overwrite", o)].
  change (Dict.get_default "filename" VNone [("overwrite", ?o)]) with VNone.
  rewrite normalize_mapping.
  assert (Dict.get "aggregate" (("name", VStr name) :: c) = None) as ->.
  { cbn [Dict.get]. change (String.eqb "aggregate" "name") with false.
    cbv iota. apply Hreserved. cbn. tauto. }
  cbn [rbind].
  assert (Dict.pop "name" (("name", VStr name) :: c) = Ok (VStr name, c))
    as ->.
  { unfold Dict.pop. cbn [Dict.get].
    change (String.eqb "name" "name") with true. cbv iota.
    change (Dict.remove "name" (("name", ?v) :: c))
      with (Dict.remove "name" c).
    by rewrite Hremove by (cbn; tauto). }
  cbn [rbind]. cbv zeta.
  rewrite intersection_single by (apply Hreserved; cbn; tauto).
  cbn [length Nat.eqb negb lower_text rbind].
  change (Dict.update c [("overwrite", ?o)]) with (Dict.set "overwrite" o c).
  rewrite (set_absent "overwrite") by (apply Hreserved; cbn; tauto).
  rewrite (set_absent "sector").
  2:{ rewrite get_app, Hreserved by (cbn; tauto). reflexivity. }
  rewrite Hstrip. cbn [rbind]. rewrite Hwriter. cbn [rbind].
  rewrite <- app_assoc. cbn [app]. by rewrite lower_idempotent.
Qed.

Lemma factory_aggregate_settings_witness :
  factory (B := Rows.backend) 2 OUTPUT_SINKS
    [("sink", VDict [("aggregate", VStr "csv")]);
     ("filename", VStr "all.csv"); ("index", VBool false)] (VStr "Power")
  = Some (Ok (YearlyAggregate
                (Partial Wcsv [("filename", VStr "all.csv");
                               ("index", VBool false);
                               ("overwrite", VBool true);
                               ("sector", VStr "power")])
                None (VStr "year"))).
Proof.
  apply (factory_aggregate_settings (B := Rows.backend) 0 "csv" "csv" Wcsv
           "Power"
           [("sink", VDict [("aggregate", VStr "csv")]);
            ("filename", VStr "all.csv"); ("index", VBool false)]
           eq_refl eq_refl eq_refl).
  - apply (bool_decide_unpack _). vm_compute. exact I.
  - intros k Hk. cbn in Hk.
    repeat destruct Hk as [<-|Hk]; try reflexivity. destruct Hk.
Defined.
